(** * Application firewall prototype: a shallow embedding

    The development follows [fire_Wall/app_firewall.py] and
    [fire_Wall/cleanup_anomalies_script.py].  Python code that talks to
    SQLite, to psutil and to scikit-learn is written in a small state and
    exception monad over a [world]: the database file, the operating
    system's entropy and clock, the log file and the global NumPy random
    state.  Library functions whose code is not part of the repository
    (IsolationForest, [str] of a datetime, SQLite's test for numeric
    literals, the rendering of [dashboard.html]) are Section variables.  The
    database is taken as SQLite keeps it once [init_db] has run: two
    tables, the rows of each in insertion order, reachable at every call. *)

From Stdlib Require Import ZArith QArith String Ascii List Lia DecimalString.
From stdpp Require Import base option list strings gmap.

Open Scope Z_scope.
Open Scope string_scope.
Open Scope list_scope.

(** ** Python exceptions *)

(** The exception classes the code can meet.  [KeyboardInterrupt] derives
    from [BaseException] only, all the others derive from [Exception]. *)
Inductive exn_class :=
  | AttributeError
  | KeyError
  | TypeError
  | ValueError
  | OverflowError
  | TemplateNotFound     (* jinja2.TemplateNotFound *)
  | IntegrityError       (* sqlite3.IntegrityError *)
  | OperationalError     (* sqlite3.OperationalError *)
  | NoSuchProcess        (* psutil.NoSuchProcess *)
  | AccessDenied         (* psutil.AccessDenied *)
  | KeyboardInterrupt.

Record exception := Exn { exn_cls : exn_class; exn_msg : string }.

(** [isinstance(e, Exception)] *)
Definition is_Exception (e : exception) : bool :=
  match exn_cls e with
  | KeyboardInterrupt => false
  | _ => true
  end.

(** [isinstance(e, sqlite3.Error)] *)
Definition is_sqlite3_Error (e : exception) : bool :=
  match exn_cls e with
  | IntegrityError | OperationalError => true
  | _ => false
  end.

(** [isinstance(e, (psutil.NoSuchProcess, psutil.AccessDenied))] *)
Definition is_NoSuchProcess_or_AccessDenied (e : exception) : bool :=
  match exn_cls e with
  | NoSuchProcess | AccessDenied => true
  | _ => false
  end.

Inductive result (A : Type) :=
  | Ok (a : A)
  | Raise (e : exception).
Arguments Ok {A} a.
Arguments Raise {A} e.

Definition is_Ok {A} (r : result A) : bool :=
  match r with Ok _ => true | Raise _ => false end.

(** ** The database file [firewall_policies.db] *)

(** A row of [app_policies]; the three allow-lists are stored as
    comma-separated text. *)
Record policy_row := PolicyRow {
  pol_id : string;
  pol_app_name : string;
  pol_allowed_domains : string;
  pol_allowed_ips : string;
  pol_allowed_protocols : string;
  pol_is_active : bool
}.

(** What a column of NUMERIC affinity holds for a text bound to it.
    [timestamp DATETIME] is such a column: SQLite stores a text that is a
    well-formed integer or real literal as that number, and a [SELECT]
    gives the number back; any other text is stored and returned as it
    is. *)
Inductive numeric_column :=
  | KeptText (s : string)
  | NumberOf (literal : string).

(** A row of [network_logs]. *)
Record log_row := LogRow {
  log_id : string;
  log_app_name : string;
  log_timestamp : numeric_column;
  log_destination : string;
  log_protocol : string;
  log_bytes_sent : Z;
  log_bytes_received : Z
}.

(** The two tables [DatabaseManager.init_db] creates, each in insertion
    (rowid) order. *)
Record database := Database {
  app_policies : list policy_row;
  network_logs : list log_row
}.

Definition set_network_logs (d : database) (l : list log_row) : database :=
  {| app_policies := app_policies d; network_logs := l |}.

Definition set_app_policies (d : database) (l : list policy_row) : database :=
  {| app_policies := l; network_logs := network_logs d |}.

(** [CREATE TABLE IF NOT EXISTS] on tables that exist changes nothing. *)
Definition init_db_tables (d : database) : database := d.

Definition log_ids (d : database) : list string := map log_id (network_logs d).

Definition mem_string (s : string) (l : list string) : bool :=
  existsb (String.eqb s) l.

(** An integer the sqlite3 module can bind: SQLite integers are signed and
    64 bits wide. *)
Definition fits_int64 (n : Z) : bool :=
  ((- (2 ^ 63) <=? n) && (n <? 2 ^ 63))%Z.

(** [cursor.execute('INSERT INTO network_logs ... VALUES (?, ...)', row)].
    The parameters are bound first: an integer outside the 64-bit range
    makes the sqlite3 module raise [OverflowError], and the statement is not
    run.  Then the statement runs: [id] is the primary key, a second row
    with the same key is refused. *)
Definition sql_insert_log (r : log_row) (d : database) : result database :=
  if negb (fits_int64 (log_bytes_sent r) && fits_int64 (log_bytes_received r))
  then Raise (Exn OverflowError "Python int too large to convert to SQLite INTEGER")
  else if mem_string (log_id r) (log_ids d)
  then Raise (Exn IntegrityError "UNIQUE constraint failed: network_logs.id")
  else Ok (set_network_logs d (network_logs d ++ [r])).

(** [INSERT OR REPLACE INTO app_policies ...]: a row with the same primary
    key is deleted before the new row is stored. *)
Definition sql_insert_or_replace_policy (r : policy_row) (d : database) : database :=
  set_app_policies d
    (List.filter (fun p => negb (String.eqb (pol_id p) (pol_id r))) (app_policies d) ++ [r]).

(** [SELECT COUNT( * ) FROM network_logs] *)
Definition sql_count_logs (d : database) : Z := Z.of_nat (length (network_logs d)).

(** [SELECT * FROM network_logs] *)
Definition sql_select_all_logs (d : database) : list log_row := network_logs d.

(** [SELECT * FROM network_logs WHERE app_name = ?] *)
Definition sql_select_logs_by_app (app : string) (d : database) : list log_row :=
  List.filter (fun r => String.eqb (log_app_name r) app) (network_logs d).

(** [DELETE FROM network_logs] *)
Definition sql_delete_all_logs (d : database) : database := set_network_logs d [].

(** ** What psutil hands to the agent *)

(** An attribute of a Python object: reading an attribute the object does
    not have raises [AttributeError]. *)
Inductive attr (A : Type) :=
  | NoAttr
  | HasAttr (v : A).
Arguments NoAttr {A}.
Arguments HasAttr {A} v.

(** [addr(ip, port)] *)
Record addr := Addr { ip : string; port : Z }.

(** One element of [psutil.net_connections()].  [laddr] and [raddr] are an
    [addr] or the empty tuple ([None] here); [type_name] is the [name] of
    the socket kind when the value has one; [pid] is the owning process,
    which the agent never reads; [sent] and [recv] are the two attributes
    the agent reads for the byte counters, whose value can be [None].  The
    connection tuple psutil builds has neither of the two ([NoAttr]); an
    object that has them is as good for the agent, Python looking
    attributes up by name. *)
Record sconn := SConn {
  laddr : option addr;
  raddr : option addr;
  type_name : option string;
  pid : option Z;
  sent : attr (option Z);
  recv : attr (option Z)
}.

(** Values stored in the [info] dictionary of a process. *)
Inductive pyval :=
  | PyNone
  | PyInt (n : Z)
  | PyStr (s : string).

(** One element of [psutil.process_iter(['pid', 'name', 'exe'])].  [info]
    is the dictionary psutil has attached to the process: it holds the
    three keys asked for, with [None] for a value psutil was denied access
    to.  [Raise] is there for an object on which the attribute read fails,
    the case the handler in the loop is written for. *)
Record proc := Proc { info : result (gmap string pyval) }.

Section Firewall.

(** [datetime] values and [str] on them. *)
Variable datetime : Type.
Variable datetime_str : datetime -> string.

(** SQLite's test on a text bound to a column of NUMERIC affinity: is it a
    well-formed integer or real literal? *)
Variable is_numeric_literal : string -> bool.

(** NumPy random states; [RandomState seed] is a state freshly seeded. *)
Variable rng_state : Type.
Variable RandomState : Z -> rng_state.

(** scikit-learn's IsolationForest: [forest_fit contamination rng X] fits a
    forest on the feature rows [X], drawing from [rng]; [forest_predict]
    labels each row [1] (inlier) or [-1] (outlier).  Both can raise. *)
Variable forest : Type.
Variable forest_fit : Q -> rng_state -> list (Z * Z) -> result forest.
Variable forest_predict : forest -> list (Z * Z) -> result (list Z).

(** Flask's [render_template] on the template file, which is not among the
    sources: the page for the given template name, process list and
    anomalies, or the exception rendering raises ([TemplateNotFound] when
    the file is missing). *)
Variable render_template :
  string -> list (gmap string pyval) -> list log_row -> result string.

(** ** The world *)

Record world := World {
  db : database;                    (* firewall_policies.db *)
  os_entropy : nat -> string;       (* the k-th [str(uuid.uuid4())] *)
  uuid_calls : nat;
  os_clock : nat -> datetime;       (* the k-th [datetime.now()] *)
  now_calls : nat;
  numpy_rng : rng_state;            (* the global NumPy random state *)
  app_firewall_log : list string;   (* messages logged at level ERROR *)
  stdout : list string
}.

Definition set_db (w : world) (d : database) : world :=
  {| db := d; os_entropy := os_entropy w; uuid_calls := uuid_calls w;
     os_clock := os_clock w; now_calls := now_calls w;
     numpy_rng := numpy_rng w; app_firewall_log := app_firewall_log w;
     stdout := stdout w |}.

(** ** State and exception monad *)

Definition M (A : Type) : Type := world -> result A * world.

Definition ret {A} (a : A) : M A := fun w => (Ok a, w).

Definition bind {A B} (m : M A) (k : A -> M B) : M B :=
  fun w =>
    match m w with
    | (Ok a, w') => k a w'
    | (Raise e, w') => (Raise e, w')
    end.

Definition raise {A} (e : exception) : M A := fun w => (Raise e, w).

Definition lift {A} (r : result A) : M A := fun w => (r, w).

(** [try: body  except <classes> as e: handler e] *)
Definition try_except {A} (body : M A) (caught : exception -> bool)
    (handler : exception -> M A) : M A :=
  fun w =>
    match body w with
    | (Ok a, w') => (Ok a, w')
    | (Raise e, w') => if caught e then handler e w' else (Raise e, w')
    end.

Notation "x <- c ;; k" := (bind c (fun x => k))
  (at level 100, c at next level, right associativity).
Notation "c ;;; k" := (bind c (fun _ => k))
  (at level 100, right associativity).

(** [for x in l: body x] *)
Fixpoint for_each {A} (l : list A) (body : A -> M unit) : M unit :=
  match l with
  | [] => ret tt
  | x :: rest => body x ;;; for_each rest body
  end.

(** [str(uuid.uuid4())] *)
Definition uuid4 : M string :=
  fun w =>
    (Ok (os_entropy w (uuid_calls w)),
     {| db := db w; os_entropy := os_entropy w; uuid_calls := S (uuid_calls w);
        os_clock := os_clock w; now_calls := now_calls w;
        numpy_rng := numpy_rng w; app_firewall_log := app_firewall_log w;
        stdout := stdout w |}).

(** [datetime.now()] *)
Definition now : M datetime :=
  fun w =>
    (Ok (os_clock w (now_calls w)),
     {| db := db w; os_entropy := os_entropy w; uuid_calls := uuid_calls w;
        os_clock := os_clock w; now_calls := S (now_calls w);
        numpy_rng := numpy_rng w; app_firewall_log := app_firewall_log w;
        stdout := stdout w |}).

(** [logging.error(msg)] *)
Definition logging_error (msg : string) : M unit :=
  fun w =>
    (Ok tt,
     {| db := db w; os_entropy := os_entropy w; uuid_calls := uuid_calls w;
        os_clock := os_clock w; now_calls := now_calls w;
        numpy_rng := numpy_rng w;
        app_firewall_log := app_firewall_log w ++ [msg];
        stdout := stdout w |}).

(** [print(msg)] *)
Definition print (msg : string) : M unit :=
  fun w =>
    (Ok tt,
     {| db := db w; os_entropy := os_entropy w; uuid_calls := uuid_calls w;
        os_clock := os_clock w; now_calls := now_calls w;
        numpy_rng := numpy_rng w; app_firewall_log := app_firewall_log w;
        stdout := stdout w ++ [msg] |}).

(** ** DatabaseManager *)

Definition init_db : M unit :=
  fun w => (Ok tt, set_db w (init_db_tables (db w))).

(** ** ApplicationFirewallAgent *)

(** The dictionary [monitor_network_traffic] builds for one socket. *)
Record log_entry := LogEntry {
  entry_id : string;
  entry_app_name : string;
  entry_timestamp : datetime;
  entry_destination : string;
  entry_protocol : string;
  entry_bytes_sent : Z;
  entry_bytes_received : Z
}.

(** What the [timestamp] column holds when the text [s] is bound to it. *)
Definition numeric_affinity (s : string) : numeric_column :=
  if is_numeric_literal s then NumberOf s else KeptText s.

(** The row the INSERT stores for the tuple bound to its seven
    placeholders: the five texts and two integers of the entry, the third
    being [str(log_entry['timestamp'])] as its column keeps it. *)
Definition row_of_entry (e : log_entry) : log_row :=
  {| log_id := entry_id e;
     log_app_name := entry_app_name e;
     log_timestamp := numeric_affinity (datetime_str (entry_timestamp e));
     log_destination := entry_destination e;
     log_protocol := entry_protocol e;
     log_bytes_sent := entry_bytes_sent e;
     log_bytes_received := entry_bytes_received e |}.

(** [cursor.execute] raises before [conn.commit()] when a counter cannot be
    bound or the key exists, so the file is left as it was. *)
Definition _log_network_activity (e : log_entry) : M unit :=
  fun w =>
    match sql_insert_log (row_of_entry e) (db w) with
    | Ok d => (Ok tt, set_db w d)
    | Raise ex => (Raise ex, w)
    end.

Definition gets {A} (f : world -> A) : M A := fun w => (Ok (f w), w).

Definition modify_db (f : database -> database) : M unit :=
  fun w => (Ok tt, set_db w (f (db w))).

(** The dictionary appended for one process: [proc.info['pid']] and
    [proc.info['name']] raise [KeyError] on a missing key,
    [proc.info.get('exe', 'Unknown')] falls back to ['Unknown'] on a missing
    key and passes a stored value through, [None] included. *)
Definition process_descriptor (d : gmap string pyval) : result (gmap string pyval) :=
  match d !! "pid" with
  | None => Raise (Exn KeyError "'pid'")
  | Some p =>
      match d !! "name" with
      | None => Raise (Exn KeyError "'name'")
      | Some n =>
          Ok (<["path" := default (PyStr "Unknown") (d !! "exe")]>
                (<["name" := n]> (<["pid" := p]> ∅)))
      end
  end.

Fixpoint get_running_processes_loop (process_iter : list proc)
    (processes : list (gmap string pyval)) : M (list (gmap string pyval)) :=
  match process_iter with
  | [] => ret processes
  | p :: rest =>
      processes' <-
        try_except
          (d <- lift (info p) ;;
           entry <- lift (process_descriptor d) ;;
           ret (processes ++ [entry]))
          is_NoSuchProcess_or_AccessDenied
          (fun _ => ret processes) ;;
      get_running_processes_loop rest processes'
  end.

Definition get_running_processes (process_iter : list proc)
    : M (list (gmap string pyval)) :=
  get_running_processes_loop process_iter [].

(** [conn.laddr and conn.raddr] *)
Definition established (conn : sconn) : bool :=
  match laddr conn, raddr conn with
  | Some _, Some _ => true
  | _, _ => false
  end.

Definition getattr {A} (name : string) (a : attr A) : M A :=
  match a with
  | HasAttr v => ret v
  | NoAttr =>
      raise (Exn AttributeError ("'sconn' object has no attribute '" +:+ name +:+ "'"))
  end.

(** [x or 0] on an integer or [None] *)
Definition or_0 (x : option Z) : Z :=
  match x with
  | Some n => n
  | None => 0
  end.

(** [str] of an integer, in decimal *)
Definition str_int (n : Z) : string := NilZero.string_of_int (Z.to_int n).

(** The dictionary display of the loop body, its items evaluated in
    order. *)
Definition build_log_entry (app_name : string) (conn : sconn) : M log_entry :=
  id <- uuid4 ;;
  timestamp <- now ;;
  destination <-
    match raddr conn with
    | Some a => ret (ip a +:+ ":" +:+ str_int (port a))
    | None => raise (Exn AttributeError "'tuple' object has no attribute 'ip'")
    end ;;
  let protocol := match type_name conn with Some n => n | None => "Unknown" end in
  bytes_sent <- getattr "sent" (sent conn) ;;
  bytes_received <- getattr "recv" (recv conn) ;;
  ret {| entry_id := id;
         entry_app_name := app_name;
         entry_timestamp := timestamp;
         entry_destination := destination;
         entry_protocol := protocol;
         entry_bytes_sent := or_0 bytes_sent;
         entry_bytes_received := or_0 bytes_received |}.

Definition monitor_body (app_name : string) (conn : sconn) : M unit :=
  log_entry <- build_log_entry app_name conn ;;
  _log_network_activity log_entry.

(** [net_connections] is what [psutil.net_connections()] returns or
    raises. *)
Definition monitor_network_traffic (net_connections : result (list sconn))
    (app_name : string) : M unit :=
  try_except
    (conns <- lift net_connections ;;
     let connections := List.filter established conns in
     for_each connections (monitor_body app_name))
    is_Exception
    (fun e => logging_error ("Network monitoring error: " +:+ exn_msg e)).

(** [IsolationForest(contamination=..., random_state=...)] *)
Record IsolationForest := {
  contamination : Q;
  random_state : option Z
}.

(** scikit-learn's [check_random_state]: an integer seeds a new state,
    [None] stands for the global one. *)
Definition check_random_state (seed : option Z) : M rng_state :=
  match seed with
  | Some n => ret (RandomState n)
  | None => gets numpy_rng
  end.

Definition fit (clf : IsolationForest) (X : list (Z * Z)) : M forest :=
  rng <- check_random_state (random_state clf) ;;
  lift (forest_fit (contamination clf) rng X).

Fixpoint select_rows (df : list log_row) (mask : list bool) : list log_row :=
  match df, mask with
  | r :: df', b :: mask' => if b then r :: select_rows df' mask' else select_rows df' mask'
  | _, _ => []
  end.

(** [df[mask]]: pandas refuses a mask whose length is not the frame's. *)
Definition boolean_index (df : list log_row) (mask : list bool) : result (list log_row) :=
  if Nat.eqb (length mask) (length df)
  then Ok (select_rows df mask)
  else Raise (Exn ValueError "Item wrong length").

(** [df[['bytes_sent', 'bytes_received']].values] *)
Definition features_of (df : list log_row) : list (Z * Z) :=
  map (fun r => (log_bytes_sent r, log_bytes_received r)) df.

(** The body of the [try] of [detect_anomalies]. *)
Definition isolation_forest_pass (df : list log_row) : M (list log_row) :=
  let features := features_of df in
  let clf := {| contamination := Qmake 1 10; random_state := Some 42 |} in
  fitted <- fit clf features ;;
  predictions <- lift (forest_predict fitted features) ;;
  lift (boolean_index df (map (Z.eqb (-1)) predictions)).

Definition detect_anomalies : M (list log_row) :=
  log_count <- gets (fun w => sql_count_logs (db w)) ;;
  if (log_count <? 10)%Z then ret []
  else
    df <- gets (fun w => sql_select_all_logs (db w)) ;;
    try_except
      (isolation_forest_pass df)
      is_Exception
      (fun e => logging_error ("Anomaly detection error: " +:+ exn_msg e) ;;; ret []).

(** [ApplicationFirewallAgent()] *)
Definition new_agent : M string :=
  agent_id <- uuid4 ;;
  init_db ;;;
  ret agent_id.

(** ** Web management console *)

Definition dashboard (process_iter : list proc) : M string :=
  new_agent ;;;
  processes <- get_running_processes process_iter ;;
  anomalies <-
    try_except detect_anomalies is_Exception
      (fun e =>
         logging_error ("Dashboard anomaly detection error: " +:+ exn_msg e) ;;;
         ret []) ;;
  lift (render_template "dashboard.html" processes anomalies).

(** The JSON body of [POST /policy/create]; a key can be missing. *)
Record policy_request := PolicyRequest {
  req_app_name : option string;
  req_allowed_domains : option (list string);
  req_allowed_ips : option (list string);
  req_allowed_protocols : option (list string);
  req_is_active : option bool
}.

(** [','.join(l)] *)
Definition join_comma (l : list string) : string := String.concat "," l.

(** [jsonify({"status": "success"})] *)
Definition success_response : gmap string string := {["status" := "success"]}.

Definition create_policy (data : policy_request) : M (gmap string string) :=
  id <- uuid4 ;;
  app_name <-
    match req_app_name data with
    | Some n => ret n
    | None => raise (Exn KeyError "'app_name'")
    end ;;
  modify_db (sql_insert_or_replace_policy
    {| pol_id := id;
       pol_app_name := app_name;
       pol_allowed_domains := join_comma (default [] (req_allowed_domains data));
       pol_allowed_ips := join_comma (default [] (req_allowed_ips data));
       pol_allowed_protocols := join_comma (default [] (req_allowed_protocols data));
       pol_is_active := default true (req_is_active data) |}) ;;;
  ret success_response.

Definition get_app_logs (app_name : string) : M (list log_row) :=
  gets (fun w => sql_select_logs_by_app app_name (db w)).

(** ** [cleanup_anomalies_script.cleanup_network_logs] *)

Definition cleanup_network_logs : M unit :=
  try_except
    (modify_db sql_delete_all_logs ;;;
     print "Network logs have been successfully cleared.")
    is_sqlite3_Error
    (fun e => print ("An error occurred while cleaning up logs: " +:+ exn_msg e)).

(** ** Definitions the statements use *)

(** [respects R m]: whatever [m] returns or raises, the world it leaves is
    related by [R] to the world it started from. *)
Definition respects {A} (R : world -> world -> Prop) (m : M A) : Prop :=
  forall w, R w (snd (m w)).

(** The log table only grows at its end. *)
Definition logs_extended (w w' : world) : Prop :=
  network_logs (db w) `prefix_of` network_logs (db w').

(** The database file is left as it is. *)
Definition db_unchanged (w w' : world) : Prop := db w' = db w.

(** The entry points of the agent, of the web console and of the cleanup
    script that open the database, each with what it reads from outside. *)
Inductive operation :=
  | InitDb
  | NewAgent
  | GetRunningProcesses (process_iter : list proc)
  | MonitorNetworkTraffic (net_connections : result (list sconn)) (app_name : string)
  | LogNetworkActivity (e : log_entry)
  | DetectAnomalies
  | Dashboard (process_iter : list proc)
  | CreatePolicy (data : policy_request)
  | GetAppLogs (app_name : string)
  | CleanupNetworkLogs.

(** The world an operation leaves, whether it returned or raised. *)
Definition run_operation (op : operation) (w : world) : world :=
  match op with
  | InitDb => snd (init_db w)
  | NewAgent => snd (new_agent w)
  | GetRunningProcesses process_iter => snd (get_running_processes process_iter w)
  | MonitorNetworkTraffic nc app => snd (monitor_network_traffic nc app w)
  | LogNetworkActivity e => snd (_log_network_activity e w)
  | DetectAnomalies => snd (detect_anomalies w)
  | Dashboard process_iter => snd (dashboard process_iter w)
  | CreatePolicy data => snd (create_policy data w)
  | GetAppLogs app => snd (get_app_logs app w)
  | CleanupNetworkLogs => snd (cleanup_network_logs w)
  end.

Definition run_operations (ops : list operation) (w : world) : world :=
  fold_left (fun w op => run_operation op w) ops w.

Definition is_cleanup (op : operation) : bool :=
  match op with
  | CleanupNetworkLogs => true
  | _ => false
  end.

Definition no_cleanup (ops : list operation) : bool :=
  forallb (fun op => negb (is_cleanup op)) ops.

(** What the [try] body of [detect_anomalies] computes, as a value: the
    body reads nothing of the world and leaves it as it is. *)
Definition forest_outliers (df : list log_row) : result (list log_row) :=
  match forest_fit (Qmake 1 10) (RandomState 42) (features_of df) with
  | Raise e => Raise e
  | Ok fitted =>
      match forest_predict fitted (features_of df) with
      | Raise e => Raise e
      | Ok predictions => boolean_index df (map (Z.eqb (-1)) predictions)
      end
  end.

(** The handler of the [except Exception] clause of [detect_anomalies]. *)
Definition detect_handler (e : exception) : M (list log_row) :=
  logging_error ("Anomaly detection error: " +:+ exn_msg e) ;;; ret [].

(** A process whose lookup fails in one of the two ways the loop handles,
    or whose [info] holds the [pid] and [name] the iterator was asked
    for. *)
Definition lookup_handled (p : proc) : Prop :=
  match info p with
  | Ok d => is_Some (d !! "pid") /\ is_Some (d !! "name")
  | Raise e => is_NoSuchProcess_or_AccessDenied e = true
  end.

(** The descriptor a process contributes, if any. *)
Definition descriptor_of (p : proc) : option (gmap string pyval) :=
  match info p with
  | Ok d =>
      match process_descriptor d with
      | Ok entry => Some entry
      | Raise _ => None
      end
  | Raise _ => None
  end.

(** Both byte-counter attributes can be read. *)
Definition readable (conn : sconn) : bool :=
  match sent conn, recv conn with
  | HasAttr _, HasAttr _ => true
  | _, _ => false
  end.

Definition destination_of (conn : sconn) : string :=
  match raddr conn with
  | Some a => ip a +:+ ":" +:+ str_int (port a)
  | None => ""
  end.

Definition protocol_of (conn : sconn) : string :=
  match type_name conn with
  | Some n => n
  | None => "Unknown"
  end.

Definition counter_of (a : attr (option Z)) : Z :=
  match a with
  | HasAttr v => or_0 v
  | NoAttr => 0
  end.

(** The loop body goes through for [conn] when [id] is generated for it
    and [stored_ids] are the keys of the table: both counters can be read,
    both can be bound, and the key is unused. *)
Definition storable (conn : sconn) (id : string) (stored_ids : list string) : bool :=
  readable conn
  && (fits_int64 (counter_of (sent conn)) && fits_int64 (counter_of (recv conn)))
  && negb (mem_string id stored_ids).

(** The number of sockets at the head of [conns] for which the loop body
    goes through in turn, the first taking the [u]-th id. *)
Fixpoint leading_storable (conns : list sconn) (entropy : nat -> string) (u : nat)
    (stored_ids : list string) : nat :=
  match conns with
  | [] => O
  | conn :: rest =>
      if storable conn (entropy u) stored_ids
      then S (leading_storable rest entropy (S u) (stored_ids ++ [entropy u]))
      else O
  end.

(** The number of records a pass over [conns] stores when it starts in
    [w]. *)
Definition stored_count (conns : list sconn) (w : world) : nat :=
  leading_storable conns (os_entropy w) (uuid_calls w) (log_ids (db w)).

(** The row stored for [conn] when its id is [id] and the clock read
    [timestamp]. *)
Definition row_for (app_name : string) (conn : sconn) (id : string)
    (timestamp : datetime) : log_row :=
  {| log_id := id;
     log_app_name := app_name;
     log_timestamp := numeric_affinity (datetime_str timestamp);
     log_destination := destination_of conn;
     log_protocol := protocol_of conn;
     log_bytes_sent := counter_of (sent conn);
     log_bytes_received := counter_of (recv conn) |}.

(** The rows of a run of sockets, the first taking the [u]-th id and the
    [n]-th clock reading. *)
Fixpoint rows_from (app_name : string) (conns : list sconn)
    (entropy : nat -> string) (clock : nat -> datetime) (u n : nat) : list log_row :=
  match conns with
  | [] => []
  | conn :: rest =>
      row_for app_name conn (entropy u) (clock n)
      :: rows_from app_name rest entropy clock (S u) (S n)
  end.

(** The world after [k] more ids and [k] more clock readings. *)
Definition tick (k : nat) (w : world) : world :=
  {| db := db w; os_entropy := os_entropy w; uuid_calls := k + uuid_calls w;
     os_clock := os_clock w; now_calls := k + now_calls w;
     numpy_rng := numpy_rng w; app_firewall_log := app_firewall_log w;
     stdout := stdout w |}.

(** The rows of [app_policies] that are active for [app]. *)
Definition active_policies (app : string) (d : database) : list policy_row :=
  List.filter (fun p => String.eqb (pol_app_name p) app && pol_is_active p)
    (app_policies d).

(** The row [create_policy] stores for [data] under [id]. *)
Definition policy_row_of (id app_name : string) (data : policy_request) : policy_row :=
  {| pol_id := id;
     pol_app_name := app_name;
     pol_allowed_domains := join_comma (default [] (req_allowed_domains data));
     pol_allowed_ips := join_comma (default [] (req_allowed_ips data));
     pol_allowed_protocols := join_comma (default [] (req_allowed_protocols data));
     pol_is_active := default true (req_is_active data) |}.

(** ** The log store *)

Lemma mem_string_In (s : string) (l : list string) :
  mem_string s l = true <-> In s l.
Proof.
  unfold mem_string. rewrite existsb_exists. split.
  - intros [x [Hx Heq]]. apply String.eqb_eq in Heq. now subst.
  - intros H. exists s. split; [assumption | apply String.eqb_refl].
Qed.

Lemma fits_int64_spec (n : Z) :
  fits_int64 n = true <-> - (2 ^ 63) <= n < 2 ^ 63.
Proof.
  unfold fits_int64. rewrite andb_true_iff, Z.leb_le, Z.ltb_lt. reflexivity.
Qed.

Lemma sql_insert_log_overflow (r : log_row) (d : database) :
  fits_int64 (log_bytes_sent r) && fits_int64 (log_bytes_received r) = false ->
  sql_insert_log r d =
    Raise (Exn OverflowError "Python int too large to convert to SQLite INTEGER").
Proof. intros H. unfold sql_insert_log. now rewrite H. Qed.

Lemma sql_insert_log_fresh (r : log_row) (d : database) :
  fits_int64 (log_bytes_sent r) && fits_int64 (log_bytes_received r) = true ->
  ~ In (log_id r) (log_ids d) ->
  sql_insert_log r d = Ok (set_network_logs d (network_logs d ++ [r])).
Proof.
  intros Hfit H. unfold sql_insert_log. rewrite Hfit. simpl.
  destruct (mem_string (log_id r) (log_ids d)) eqn:E; [| reflexivity].
  apply mem_string_In in E. contradiction.
Qed.

Lemma sql_insert_log_duplicate (r : log_row) (d : database) :
  fits_int64 (log_bytes_sent r) && fits_int64 (log_bytes_received r) = true ->
  In (log_id r) (log_ids d) ->
  sql_insert_log r d =
    Raise (Exn IntegrityError "UNIQUE constraint failed: network_logs.id").
Proof.
  intros Hfit H. unfold sql_insert_log. rewrite Hfit. simpl.
  apply mem_string_In in H. now rewrite H.
Qed.

(** Whatever [sql_insert_log] does, it either raises or appends the row. *)
Lemma sql_insert_log_cases (r : log_row) (d : database) :
  (exists ex, sql_insert_log r d = Raise ex /\ is_Exception ex = true)
  \/ sql_insert_log r d = Ok (set_network_logs d (network_logs d ++ [r]))
     /\ ~ In (log_id r) (log_ids d).
Proof.
  unfold sql_insert_log.
  destruct (fits_int64 _ && fits_int64 _); simpl.
  - destruct (mem_string _ _) eqn:E.
    + left. eexists. split; reflexivity.
    + right. split; [reflexivity |].
      intros Hin. apply mem_string_In in Hin. congruence.
  - left. eexists. split; reflexivity.
Qed.

(** C9: appending a record whose id is already a key of [network_logs],
    its two byte counters being integers SQLite can hold (signed, 64 bits),
    raises a storage error ([sqlite3.IntegrityError]), and the world, the
    database file with it, is exactly what it was before the call. *)
Theorem log_network_activity_duplicate_id (e : log_entry) (w : world) :
  In (entry_id e) (log_ids (db w)) ->
  fits_int64 (entry_bytes_sent e) = true ->
  fits_int64 (entry_bytes_received e) = true ->
  exists ex,
    _log_network_activity e w = (Raise ex, w)
    /\ exn_cls ex = IntegrityError
    /\ is_sqlite3_Error ex = true.
Proof.
  intros H Hs Hr.
  exists (Exn IntegrityError "UNIQUE constraint failed: network_logs.id").
  unfold _log_network_activity.
  rewrite sql_insert_log_duplicate; [repeat split | | exact H].
  simpl. now rewrite Hs, Hr.
Qed.

(** A counter outside the 64-bit range is refused when the parameters are
    bound, whether the id is stored or not: the call raises
    [OverflowError], which is no [sqlite3.Error], and the world is as it
    was. *)
Lemma log_network_activity_overflow (e : log_entry) (w : world) :
  fits_int64 (entry_bytes_sent e) && fits_int64 (entry_bytes_received e) = false ->
  exists ex,
    _log_network_activity e w = (Raise ex, w)
    /\ exn_cls ex = OverflowError
    /\ is_sqlite3_Error ex = false.
Proof.
  intros H.
  exists (Exn OverflowError "Python int too large to convert to SQLite INTEGER").
  unfold _log_network_activity.
  rewrite sql_insert_log_overflow by exact H.
  repeat split.
Qed.

Lemma log_network_activity_fresh_id (e : log_entry) (w : world) :
  fits_int64 (entry_bytes_sent e) && fits_int64 (entry_bytes_received e) = true ->
  ~ In (entry_id e) (log_ids (db w)) ->
  _log_network_activity e w =
    (Ok tt, set_db w (set_network_logs (db w) (network_logs (db w) ++ [row_of_entry e]))).
Proof.
  intros Hfit H. unfold _log_network_activity.
  now rewrite sql_insert_log_fresh by assumption.
Qed.

(** ** Relations every step of a computation respects *)

Section Respects.

Variable R : world -> world -> Prop.
Hypothesis R_refl : forall w, R w w.
Hypothesis R_trans : forall w1 w2 w3, R w1 w2 -> R w2 w3 -> R w1 w3.

Lemma respects_ret {A} (a : A) : respects R (ret a).
Proof. intros w. apply R_refl. Qed.

Lemma respects_raise {A} (e : exception) : respects R (@raise A e).
Proof. intros w. apply R_refl. Qed.

Lemma respects_lift {A} (r : result A) : respects R (lift r).
Proof. intros w. apply R_refl. Qed.

Lemma respects_gets {A} (f : world -> A) : respects R (gets f).
Proof. intros w. apply R_refl. Qed.

Lemma respects_bind {A B} (m : M A) (k : A -> M B) :
  respects R m -> (forall a, respects R (k a)) -> respects R (bind m k).
Proof.
  intros Hm Hk w. unfold bind. specialize (Hm w).
  destruct (m w) as [[a | e] w']; simpl in *.
  - eapply R_trans; [exact Hm | apply Hk].
  - exact Hm.
Qed.

Lemma respects_try_except {A} (body : M A) caught (handler : exception -> M A) :
  respects R body -> (forall e, respects R (handler e)) ->
  respects R (try_except body caught handler).
Proof.
  intros Hb Hh w. unfold try_except. specialize (Hb w).
  destruct (body w) as [[a | e] w']; simpl in *.
  - exact Hb.
  - destruct (caught e); simpl.
    + eapply R_trans; [exact Hb | apply Hh].
    + exact Hb.
Qed.

Lemma respects_for_each {A} (l : list A) (body : A -> M unit) :
  (forall x, respects R (body x)) -> respects R (for_each l body).
Proof.
  intros Hb. induction l as [| x l IH]; simpl.
  - apply respects_ret.
  - apply respects_bind; [apply Hb | intros _; exact IH].
Qed.

End Respects.

Lemma logs_extended_refl w : logs_extended w w.
Proof. unfold logs_extended. reflexivity. Qed.

Lemma logs_extended_trans w1 w2 w3 :
  logs_extended w1 w2 -> logs_extended w2 w3 -> logs_extended w1 w3.
Proof. unfold logs_extended. intros H1 H2. etransitivity; eassumption. Qed.

Lemma db_unchanged_refl w : db_unchanged w w.
Proof. reflexivity. Qed.

Lemma db_unchanged_trans w1 w2 w3 :
  db_unchanged w1 w2 -> db_unchanged w2 w3 -> db_unchanged w1 w3.
Proof. unfold db_unchanged. congruence. Qed.

Lemma db_unchanged_logs_extended w w' : db_unchanged w w' -> logs_extended w w'.
Proof. unfold db_unchanged, logs_extended. intros ->. reflexivity. Qed.

Lemma respects_weaken {A} (R1 R2 : world -> world -> Prop) (m : M A) :
  (forall w w', R1 w w' -> R2 w w') -> respects R1 m -> respects R2 m.
Proof. intros H Hm w. apply H, Hm. Qed.

Lemma uuid4_db : respects db_unchanged uuid4.
Proof. intros w. reflexivity. Qed.

Lemma now_db : respects db_unchanged now.
Proof. intros w. reflexivity. Qed.

Lemma logging_error_db msg : respects db_unchanged (logging_error msg).
Proof. intros w. reflexivity. Qed.

Lemma print_db msg : respects db_unchanged (print msg).
Proof. intros w. reflexivity. Qed.

Lemma init_db_db : respects db_unchanged init_db.
Proof. intros w. reflexivity. Qed.

Lemma getattr_db {A} name (a : attr A) : respects db_unchanged (getattr name a).
Proof. intros w. destruct a; reflexivity. Qed.

Lemma modify_db_logs f :
  (forall d, network_logs (f d) = network_logs d) ->
  respects logs_extended (modify_db f).
Proof.
  intros H w. unfold logs_extended. simpl. rewrite H. reflexivity.
Qed.

Create HintDb respects_db.
#[local] Hint Resolve uuid4_db now_db logging_error_db print_db init_db_db
  getattr_db db_unchanged_refl db_unchanged_trans logs_extended_refl
  logs_extended_trans : respects_db.

(** One step through a computation built from the combinators; leaves are
    closed from the hint base, for [logs_extended] through [db_unchanged]. *)
Ltac step_respects :=
  lazymatch goal with
  | |- respects _ (ret _) => apply respects_ret; solve [eauto with respects_db]
  | |- respects _ (raise _) => apply respects_raise; solve [eauto with respects_db]
  | |- respects _ (lift _) => apply respects_lift; solve [eauto with respects_db]
  | |- respects _ (gets _) => apply respects_gets; solve [eauto with respects_db]
  | |- respects _ (bind _ _) =>
      apply respects_bind; [solve [eauto with respects_db] | | intros ?]
  | |- respects _ (try_except _ _ _) =>
      apply respects_try_except; [solve [eauto with respects_db] | | intros ?]
  | |- respects _ (for_each _ _) =>
      apply respects_for_each;
      [solve [eauto with respects_db] | solve [eauto with respects_db] | intros ?]
  | |- respects _ (match ?x with _ => _ end) => destruct x
  | |- respects logs_extended _ =>
      first [ solve [eauto with respects_db]
            | apply (respects_weaken db_unchanged);
              [exact db_unchanged_logs_extended | solve [eauto with respects_db]] ]
  | |- _ => solve [eauto with respects_db]
  end.

Ltac respects_auto := repeat step_respects.

Lemma get_running_processes_db process_iter :
  respects db_unchanged (get_running_processes process_iter).
Proof.
  unfold get_running_processes. generalize (@nil (gmap string pyval)).
  induction process_iter as [| p rest IH]; intros acc; simpl.
  - respects_auto.
  - respects_auto.
Qed.

Lemma build_log_entry_db app conn : respects db_unchanged (build_log_entry app conn).
Proof. unfold build_log_entry. respects_auto. Qed.

Lemma log_network_activity_logs e : respects logs_extended (_log_network_activity e).
Proof.
  intros w. unfold logs_extended, _log_network_activity.
  destruct (sql_insert_log_cases (row_of_entry e) (db w)) as [[ex [-> _]] | [-> _]];
    simpl.
  - reflexivity.
  - now apply prefix_app_r.
Qed.

#[local] Hint Resolve get_running_processes_db build_log_entry_db
  log_network_activity_logs : respects_db.

Lemma monitor_network_traffic_logs nc app :
  respects logs_extended (monitor_network_traffic nc app).
Proof. unfold monitor_network_traffic, monitor_body. respects_auto. Qed.

Lemma isolation_forest_pass_db df : respects db_unchanged (isolation_forest_pass df).
Proof. unfold isolation_forest_pass, fit, check_random_state. respects_auto. Qed.

#[local] Hint Resolve isolation_forest_pass_db : respects_db.

Lemma detect_anomalies_db : respects db_unchanged detect_anomalies.
Proof. unfold detect_anomalies. respects_auto. Qed.

#[local] Hint Resolve detect_anomalies_db : respects_db.

Lemma dashboard_db process_iter : respects db_unchanged (dashboard process_iter).
Proof. unfold dashboard, new_agent. respects_auto. Qed.

Lemma create_policy_logs data : respects logs_extended (create_policy data).
Proof.
  unfold create_policy. respects_auto.
  apply modify_db_logs. reflexivity.
Qed.

Lemma get_app_logs_db app : respects db_unchanged (get_app_logs app).
Proof. unfold get_app_logs. respects_auto. Qed.

(** ** Sequences of operations on the store *)

Lemma run_operation_logs op w :
  is_cleanup op = false -> logs_extended w (run_operation op w).
Proof.
  intros H. destruct op; try discriminate H; unfold run_operation.
  - apply db_unchanged_logs_extended, init_db_db.
  - apply db_unchanged_logs_extended.
    assert (Hr : respects db_unchanged new_agent)
      by (unfold new_agent; respects_auto).
    apply Hr.
  - apply db_unchanged_logs_extended, get_running_processes_db.
  - apply monitor_network_traffic_logs.
  - apply log_network_activity_logs.
  - apply db_unchanged_logs_extended, detect_anomalies_db.
  - apply db_unchanged_logs_extended, dashboard_db.
  - apply create_policy_logs.
  - apply db_unchanged_logs_extended, get_app_logs_db.
Qed.

Lemma run_operations_logs ops w :
  no_cleanup ops = true -> logs_extended w (run_operations ops w).
Proof.
  unfold no_cleanup, run_operations. revert w.
  induction ops as [| op ops IH]; intros w H; simpl in *.
  - apply logs_extended_refl.
  - apply andb_prop in H as [Hop Hops].
    eapply logs_extended_trans; [| apply IH; exact Hops].
    apply run_operation_logs. now destruct (is_cleanup op).
Qed.

Lemma cleanup_network_logs_spec w :
  cleanup_network_logs w =
    (Ok tt,
     snd (print "Network logs have been successfully cleared."
            (set_db w (sql_delete_all_logs (db w))))).
Proof. reflexivity. Qed.

(** C8: a sequence of operations without [cleanup_network_logs] keeps every
    stored record where it is (the old table is a prefix of the new one),
    so the count never drops; after [cleanup_network_logs] the count is 0,
    the full query is empty and the detector reports nothing. *)
Theorem log_store_append_only :
  (forall ops w,
      no_cleanup ops = true ->
      network_logs (db w) `prefix_of` network_logs (db (run_operations ops w))
      /\ (sql_count_logs (db w) <= sql_count_logs (db (run_operations ops w)))%Z)
  /\ (forall w,
        fst (cleanup_network_logs w) = Ok tt
        /\ sql_count_logs (db (snd (cleanup_network_logs w))) = 0
        /\ sql_select_all_logs (db (snd (cleanup_network_logs w))) = []
        /\ fst (detect_anomalies (snd (cleanup_network_logs w))) = Ok []).
Proof.
  split.
  - intros ops w H. pose proof (run_operations_logs ops w H) as Hp.
    unfold logs_extended in Hp. split; [exact Hp |].
    unfold sql_count_logs. apply prefix_length in Hp. lia.
  - intros w. rewrite cleanup_network_logs_spec. repeat split.
Qed.

(** ** The anomaly detector *)

Lemma isolation_forest_pass_eq (df : list log_row) (w : world) :
  isolation_forest_pass df w = (forest_outliers df, w).
Proof.
  unfold isolation_forest_pass, forest_outliers, fit, check_random_state,
    bind, ret, lift; simpl.
  destruct (forest_fit _ _ _) as [fitted | e]; [| reflexivity].
  destruct (forest_predict _ _) as [predictions | e]; reflexivity.
Qed.

Lemma detect_anomalies_few (w : world) :
  (length (network_logs (db w)) < 10)%nat ->
  detect_anomalies w = (Ok [], w).
Proof.
  intros H. unfold detect_anomalies, bind, gets, sql_count_logs.
  destruct (Z.ltb_spec (Z.of_nat (length (network_logs (db w)))) 10) as [_ | Hge].
  - reflexivity.
  - lia.
Qed.

Lemma detect_anomalies_enough (w : world) :
  (10 <= length (network_logs (db w)))%nat ->
  detect_anomalies w =
    try_except (isolation_forest_pass (sql_select_all_logs (db w)))
      is_Exception detect_handler w.
Proof.
  intros H. unfold detect_anomalies, bind, gets, sql_count_logs.
  destruct (Z.ltb_spec (Z.of_nat (length (network_logs (db w)))) 10) as [Hlt | _].
  - lia.
  - reflexivity.
Qed.

(** C3: with fewer than 10 stored records the detector returns the empty
    list, without an exception and without touching the world; so it does
    with exactly 9; with exactly 10 it runs the isolation forest on the 10
    feature rows, and when the forest labels them it returns exactly the
    records labelled [-1]. *)
Theorem detect_anomalies_threshold (w : world) :
  ((length (network_logs (db w)) < 10)%nat -> detect_anomalies w = (Ok [], w))
  /\ (length (network_logs (db w)) = 9%nat -> detect_anomalies w = (Ok [], w))
  /\ (length (network_logs (db w)) = 10%nat ->
        detect_anomalies w =
          try_except (isolation_forest_pass (network_logs (db w)))
            is_Exception detect_handler w
        /\ forall fitted predictions,
             forest_fit (Qmake 1 10) (RandomState 42)
               (features_of (network_logs (db w))) = Ok fitted ->
             forest_predict fitted (features_of (network_logs (db w)))
               = Ok predictions ->
             length predictions = 10%nat ->
             detect_anomalies w =
               (Ok (select_rows (network_logs (db w))
                      (map (Z.eqb (-1)) predictions)), w)).
Proof.
  split; [| split].
  - apply detect_anomalies_few.
  - intros H. apply detect_anomalies_few. lia.
  - intros H. split.
    + apply detect_anomalies_enough. lia.
    + intros fitted predictions Hfit Hpred Hlen.
      rewrite detect_anomalies_enough by lia.
      unfold try_except, sql_select_all_logs.
      rewrite isolation_forest_pass_eq. unfold forest_outliers.
      rewrite Hfit, Hpred. unfold boolean_index.
      rewrite length_map, Hlen, H. reflexivity.
Qed.

Lemma detect_anomalies_result (w : world) :
  fst (detect_anomalies w) =
    if (length (network_logs (db w)) <? 10)%nat then Ok []
    else match forest_outliers (network_logs (db w)) with
         | Ok rows => Ok rows
         | Raise e => if is_Exception e then Ok [] else Raise e
         end.
Proof.
  destruct (Nat.ltb_spec (length (network_logs (db w))) 10) as [Hlt | Hge].
  - now rewrite detect_anomalies_few.
  - rewrite detect_anomalies_enough by exact Hge.
    unfold try_except, sql_select_all_logs. rewrite isolation_forest_pass_eq.
    destruct (forest_outliers _) as [rows | e]; [reflexivity |].
    destruct (is_Exception e); reflexivity.
Qed.

(** C4: the outcome of [detect_anomalies] is a function of the stored batch
    alone.  Two worlds holding the same [network_logs], however they differ
    in the global random state, the clock, the entropy, the policies or the
    log file, give the same result; and a second invocation right after the
    first gives the result of the first.  The forest draws from
    [RandomState 42], never from the global state. *)
Theorem detect_anomalies_deterministic (w1 w2 : world) :
  network_logs (db w1) = network_logs (db w2) ->
  fst (detect_anomalies w1) = fst (detect_anomalies w2)
  /\ fst (detect_anomalies (snd (detect_anomalies w1))) = fst (detect_anomalies w1).
Proof.
  intros H. split.
  - rewrite !detect_anomalies_result, H. reflexivity.
  - rewrite !detect_anomalies_result.
    pose proof (detect_anomalies_db w1) as Hdb. unfold db_unchanged in Hdb.
    rewrite Hdb. reflexivity.
Qed.

(** C5: when the batch is large enough for the model to run and feature
    extraction, fitting, prediction or selection raises an [Exception], the
    detector logs it and returns the empty list; no exception deriving from
    [Exception] ever leaves [detect_anomalies]. *)
Theorem detect_anomalies_catches_failures (w : world) :
  (forall e,
      (10 <= length (network_logs (db w)))%nat ->
      fst (isolation_forest_pass (sql_select_all_logs (db w)) w) = Raise e ->
      is_Exception e = true ->
      detect_anomalies w =
        (Ok [], snd (logging_error ("Anomaly detection error: " +:+ exn_msg e) w)))
  /\ (forall e, fst (detect_anomalies w) = Raise e -> is_Exception e = false).
Proof.
  split.
  - intros e Hge Hraise Hexc.
    rewrite detect_anomalies_enough by exact Hge.
    unfold try_except. rewrite isolation_forest_pass_eq in *. simpl in Hraise.
    rewrite Hraise, Hexc. reflexivity.
  - intros e. rewrite detect_anomalies_result.
    destruct (_ <? _)%nat; [discriminate |].
    destruct (forest_outliers _) as [rows | e']; [discriminate |].
    destruct (is_Exception e') eqn:E; [discriminate |].
    intros [= <-]. exact E.
Qed.

(** ** The process list *)

Lemma process_descriptor_fields (d entry : gmap string pyval) :
  process_descriptor d = Ok entry ->
  entry !! "pid" = d !! "pid"
  /\ entry !! "name" = d !! "name"
  /\ entry !! "path" = Some (default (PyStr "Unknown") (d !! "exe"))
  /\ is_Some (entry !! "pid") /\ is_Some (entry !! "name").
Proof.
  unfold process_descriptor.
  destruct (d !! "pid") as [p |] eqn:Hp; [| discriminate].
  destruct (d !! "name") as [n |] eqn:Hn; [| discriminate].
  intros [= <-].
  assert (H1 : (<["path":=default (PyStr "Unknown") (d !! "exe")]>
                  (<["name":=n]> (<["pid":=p]> (∅ : gmap string pyval))))
               !! "pid" = Some p).
  { rewrite lookup_insert_ne by discriminate.
    rewrite lookup_insert_ne by discriminate.
    apply lookup_insert_eq. }
  assert (H2 : (<["path":=default (PyStr "Unknown") (d !! "exe")]>
                  (<["name":=n]> (<["pid":=p]> (∅ : gmap string pyval))))
               !! "name" = Some n).
  { rewrite lookup_insert_ne by discriminate. apply lookup_insert_eq. }
  rewrite H1, H2, lookup_insert_eq. repeat split; eauto.
Qed.

Lemma get_running_processes_loop_handled (process_iter : list proc) :
  Forall lookup_handled process_iter ->
  forall processes w,
    get_running_processes_loop process_iter processes w =
      (Ok (processes ++ omap descriptor_of process_iter), w).
Proof.
  induction 1 as [| p rest Hp _ IH]; intros processes w; simpl.
  - unfold ret. now rewrite app_nil_r.
  - unfold lookup_handled in Hp. unfold descriptor_of at 1.
    unfold bind at 1, try_except, bind, lift, ret.
    destruct (info p) as [d | e].
    + destruct Hp as [[pv Hpid] [nv Hname]].
      unfold process_descriptor. rewrite Hpid, Hname.
      rewrite IH. now rewrite <- app_assoc.
    + rewrite Hp. apply IH.
Qed.

(** The loop read on dictionaries: when every per-process failure is
    [NoSuchProcess] or [AccessDenied] (and every [info] read holds the [pid]
    and [name] asked for), [get_running_processes] returns without raising
    and leaves the world alone; the failing processes contribute nothing;
    every returned descriptor has a [pid], a [name] and a [path]; the
    descriptor of a process whose [info] has no [exe] key has
    [path = 'Unknown'], and a stored [exe] value, [None] included, is passed
    through as it is. *)
Theorem get_running_processes_total (process_iter : list proc) (w : world) :
  Forall lookup_handled process_iter ->
  get_running_processes process_iter w = (Ok (omap descriptor_of process_iter), w)
  /\ (forall p e, p ∈ process_iter -> info p = Raise e -> descriptor_of p = None)
  /\ (forall entry, entry ∈ omap descriptor_of process_iter ->
        is_Some (entry !! "pid") /\ is_Some (entry !! "name")
        /\ is_Some (entry !! "path"))
  /\ (forall p d, p ∈ process_iter -> info p = Ok d ->
        exists entry,
          entry ∈ omap descriptor_of process_iter
          /\ entry !! "pid" = d !! "pid"
          /\ entry !! "name" = d !! "name"
          /\ (d !! "exe" = None -> entry !! "path" = Some (PyStr "Unknown"))
          /\ (forall v, d !! "exe" = Some v -> entry !! "path" = Some v)).
Proof.
  intros Hall. split; [| split; [| split]].
  - unfold get_running_processes.
    now rewrite get_running_processes_loop_handled.
  - intros p e _ He. unfold descriptor_of. now rewrite He.
  - intros entry Hin. apply list_elem_of_omap in Hin as [p [_ Hdesc]].
    unfold descriptor_of in Hdesc.
    destruct (info p) as [d | e]; [| discriminate].
    destruct (process_descriptor d) as [entry' | e] eqn:Hd; [| discriminate].
    injection Hdesc as ->.
    apply process_descriptor_fields in Hd as (_ & _ & Hpath & Hp & Hn).
    repeat split; try assumption. rewrite Hpath. eauto.
  - intros p d Hin Hinfo.
    rewrite Forall_forall in Hall. specialize (Hall p Hin).
    unfold lookup_handled in Hall. rewrite Hinfo in Hall.
    destruct Hall as [[pv Hpid] [nv Hname]].
    destruct (process_descriptor d) as [entry | e] eqn:Hd.
    + exists entry. pose proof Hd as Hf.
      apply process_descriptor_fields in Hf as (Hp & Hn & Hpath & _ & _).
      split; [| repeat split; try assumption].
      * apply list_elem_of_omap. exists p. split; [exact Hin |].
        unfold descriptor_of. now rewrite Hinfo, Hd.
      * intros Hexe. now rewrite Hpath, Hexe.
      * intros v Hexe. now rewrite Hpath, Hexe.
    + unfold process_descriptor in Hd. rewrite Hpid, Hname in Hd. discriminate.
Qed.

(** ** The collection pass *)




Lemma for_each_app {A} (l1 l2 : list A) (body : A -> M unit) (w : world) :
  for_each (l1 ++ l2) body w =
    match for_each l1 body w with
    | (Ok _, w') => for_each l2 body w'
    | (Raise e, w') => (Raise e, w')
    end.
Proof.
  revert w. induction l1 as [| x l1 IH]; intros w; simpl.
  - reflexivity.
  - unfold bind. destruct (body x w) as [[[] | e] w']; [apply IH | reflexivity].
Qed.

Lemma forallb_filter_same {A} (f : A -> bool) (l : list A) :
  forallb f (List.filter f l) = true.
Proof.
  induction l as [| x l IH]; simpl; [reflexivity |].
  destruct (f x) eqn:E; simpl; [now rewrite E | exact IH].
Qed.

(** The loop body on a socket it can store: one id, one clock reading, one
    row. *)
Lemma monitor_body_storable app conn w :
  established conn = true ->
  storable conn (os_entropy w (uuid_calls w)) (log_ids (db w)) = true ->
  monitor_body app conn w =
    (Ok tt,
     set_db (tick 1 w)
       (set_network_logs (db w)
          (network_logs (db w) ++
             [row_for app conn (os_entropy w (uuid_calls w))
                (os_clock w (now_calls w))]))).
Proof.
  intros He Hs. unfold storable in Hs.
  apply andb_prop in Hs as [Hs Hid]. apply andb_prop in Hs as [Hr Hfit].
  apply negb_true_iff in Hid.
  assert (Hfresh : ~ In (os_entropy w (uuid_calls w)) (log_ids (db w))).
  { intros Hin. apply mem_string_In in Hin. congruence. }
  unfold established in He. unfold readable in Hr.
  unfold monitor_body, build_log_entry, bind, uuid4, now, getattr, ret; simpl.
  unfold row_for, destination_of, counter_of in *.
  destruct (laddr conn) as [la |]; [| discriminate].
  destruct (raddr conn) as [a |]; [| discriminate].
  destruct (sent conn) as [| s]; [discriminate |].
  destruct (recv conn) as [| r]; [discriminate |].
  simpl. unfold _log_network_activity.
  rewrite sql_insert_log_fresh; [reflexivity | exact Hfit | exact Hfresh].
Qed.

(** The loop body on any other socket: one id, one clock reading, and an
    exception; nothing is stored. *)
Lemma monitor_body_not_storable app conn w :
  established conn = true ->
  storable conn (os_entropy w (uuid_calls w)) (log_ids (db w)) = false ->
  exists e, monitor_body app conn w = (Raise e, tick 1 w) /\ is_Exception e = true.
Proof.
  intros He Hs. unfold established in He.
  unfold storable, readable, counter_of in Hs.
  unfold monitor_body, build_log_entry, bind, uuid4, now, getattr, ret, raise; simpl.
  destruct (laddr conn) as [la |]; [| discriminate].
  destruct (raddr conn) as [a |]; [| discriminate].
  destruct (sent conn) as [| s]; [eexists; split; reflexivity |].
  destruct (recv conn) as [| r]; [eexists; split; reflexivity |].
  simpl in *. unfold _log_network_activity, sql_insert_log. simpl.
  destruct (fits_int64 (or_0 s) && fits_int64 (or_0 r)); simpl in *.
  - apply negb_false_iff in Hs. rewrite Hs. eexists; split; reflexivity.
  - eexists; split; reflexivity.
Qed.

Lemma monitor_body_cases app conn w :
  established conn = true ->
  monitor_body app conn w =
    (Ok tt,
     set_db (tick 1 w)
       (set_network_logs (db w)
          (network_logs (db w) ++
             [row_for app conn (os_entropy w (uuid_calls w))
                (os_clock w (now_calls w))])))
  \/ exists e, monitor_body app conn w = (Raise e, tick 1 w).
Proof.
  intros He.
  destruct (storable conn (os_entropy w (uuid_calls w)) (log_ids (db w))) eqn:Hs.
  - left. now apply monitor_body_storable.
  - right. destruct (monitor_body_not_storable app conn w He Hs) as [e [H _]].
    now exists e.
Qed.

Lemma monitor_body_raises app conn w e :
  fst (monitor_body app conn w) = Raise e -> is_Exception e = true.
Proof.
  unfold monitor_body, build_log_entry, bind, uuid4, now, getattr, ret, raise; simpl.
  destruct (raddr conn) as [a |]; simpl; [| now intros [= <-]].
  destruct (sent conn) as [| s]; simpl; [now intros [= <-] |].
  destruct (recv conn) as [| r]; simpl; [now intros [= <-] |].
  unfold _log_network_activity; simpl.
  match goal with
  | |- context [sql_insert_log ?r ?d] =>
      destruct (sql_insert_log_cases r d) as [[ex [-> Hex]] | [-> _]]
  end; simpl.
  - now intros [= <-].
  - discriminate.
Qed.

Lemma for_each_monitor_body_raises app conns w e :
  fst (for_each conns (monitor_body app) w) = Raise e -> is_Exception e = true.
Proof.
  revert w. induction conns as [| c rest IH]; intros w; simpl.
  - discriminate.
  - unfold bind. destruct (monitor_body app c w) as [[[] | e'] w'] eqn:Hb.
    + apply IH.
    + simpl. intros [= <-].
      apply (monitor_body_raises app c w). now rewrite Hb.
Qed.

Lemma for_each_monitor_body_prefix app conns :
  forall w,
    forallb established conns = true ->
    exists k,
      (k <= length conns)%nat
      /\ network_logs (db (snd (for_each conns (monitor_body app) w))) =
           network_logs (db w) ++
             rows_from app (take k conns) (os_entropy w) (os_clock w)
               (uuid_calls w) (now_calls w)
      /\ app_policies (db (snd (for_each conns (monitor_body app) w))) =
           app_policies (db w)
      /\ app_firewall_log (snd (for_each conns (monitor_body app) w)) =
           app_firewall_log w
      /\ (fst (for_each conns (monitor_body app) w) = Ok tt -> k = length conns).
Proof.
  induction conns as [| c rest IH]; intros w He.
  - exists 0%nat. simpl. rewrite app_nil_r. repeat split; lia.
  - simpl in He. apply andb_prop in He as [He1 He2].
    destruct (monitor_body_cases app c w He1) as [Hok | [e Hraise]].
    + set (w1 := set_db (tick 1 w)
                   (set_network_logs (db w)
                      (network_logs (db w) ++
                         [row_for app c (os_entropy w (uuid_calls w))
                            (os_clock w (now_calls w))]))) in *.
      assert (E : for_each (c :: rest) (monitor_body app) w =
                  for_each rest (monitor_body app) w1)
        by (cbn [for_each]; unfold bind at 1; now rewrite Hok).
      rewrite E.
      destruct (IH w1 He2) as (k & Hk & Hlogs & Hpol & Hlog & Hfull).
      exists (S k). subst w1. simpl in *.
      rewrite Hlogs, Hpol, Hlog, <- app_assoc. simpl.
      repeat split; try lia.
      intros Hr. f_equal. now apply Hfull.
    + assert (E : for_each (c :: rest) (monitor_body app) w = (Raise e, tick 1 w))
        by (cbn [for_each]; unfold bind at 1; now rewrite Hraise).
      rewrite E. exists 0%nat. simpl. rewrite app_nil_r.
      repeat split; try lia. discriminate.
Qed.

Lemma monitor_network_traffic_unfold conns app w :
  monitor_network_traffic (Ok conns) app w =
    match for_each (List.filter established conns) (monitor_body app) w with
    | (Ok a, w1) => (Ok a, w1)
    | (Raise e, w1) =>
        if is_Exception e
        then logging_error ("Network monitoring error: " +:+ exn_msg e) w1
        else (Raise e, w1)
    end.
Proof. reflexivity. Qed.

(** A failure of the enumeration itself is caught and logged as well. *)
Lemma monitor_network_traffic_enumeration_failure (e : exception) app (w : world) :
  is_Exception e = true ->
  monitor_network_traffic (Raise e) app w =
    logging_error ("Network monitoring error: " +:+ exn_msg e) w.
Proof.
  intros H. unfold monitor_network_traffic, try_except, bind at 1, lift.
  now rewrite H.
Qed.

(** *** How far a pass gets *)




Lemma for_each_monitor_body_run app conns :
  forall w,
    forallb established conns = true ->
    network_logs (db (snd (for_each conns (monitor_body app) w))) =
      network_logs (db w) ++
        rows_from app (take (stored_count conns w) conns) (os_entropy w)
          (os_clock w) (uuid_calls w) (now_calls w)
    /\ app_firewall_log (snd (for_each conns (monitor_body app) w)) =
         app_firewall_log w
    /\ (stored_count conns w = length conns ->
        fst (for_each conns (monitor_body app) w) = Ok tt
        /\ uuid_calls (snd (for_each conns (monitor_body app) w)) =
             (stored_count conns w + uuid_calls w)%nat)
    /\ ((stored_count conns w < length conns)%nat ->
        (exists e, fst (for_each conns (monitor_body app) w) = Raise e)
        /\ uuid_calls (snd (for_each conns (monitor_body app) w)) =
             (S (stored_count conns w) + uuid_calls w)%nat).
Proof.
  induction conns as [| c rest IH]; intros w He.
  - unfold stored_count. simpl. rewrite app_nil_r.
    split; [reflexivity | split; [reflexivity | split]].
    + intros _. split; reflexivity.
    + intros Hlt. lia.
  - simpl in He. apply andb_prop in He as [He1 He2].
    unfold stored_count. cbn [leading_storable].
    destruct (storable c (os_entropy w (uuid_calls w)) (log_ids (db w))) eqn:Hs.
    + set (w1 := set_db (tick 1 w)
                   (set_network_logs (db w)
                      (network_logs (db w) ++
                         [row_for app c (os_entropy w (uuid_calls w))
                            (os_clock w (now_calls w))]))).
      assert (E : for_each (c :: rest) (monitor_body app) w =
                  for_each rest (monitor_body app) w1).
      { cbn [for_each]. unfold bind at 1.
        now rewrite (monitor_body_storable app c w He1 Hs). }
      rewrite E.
      assert (Hk : stored_count rest w1 =
                   leading_storable rest (os_entropy w) (S (uuid_calls w))
                     (log_ids (db w) ++ [os_entropy w (uuid_calls w)])).
      { unfold stored_count, w1, log_ids. simpl. now rewrite map_app. }
      rewrite <- Hk.
      destruct (IH w1 He2) as (Hlogs & Hlog & Hfull & Hpart).
      rewrite Hlogs, Hlog. subst w1. simpl.
      rewrite <- app_assoc. simpl.
      split; [reflexivity | split; [reflexivity | split]].
      * intros Hlen. destruct Hfull as [Hok Hu]; [lia |].
        split; [exact Hok |]. rewrite Hu. simpl. lia.
      * intros Hlt. destruct Hpart as [Hraise Hu]; [lia |].
        split; [exact Hraise |]. rewrite Hu. simpl. lia.
    + destruct (monitor_body_not_storable app c w He1 Hs) as (e & Hraise & _).
      assert (E : for_each (c :: rest) (monitor_body app) w = (Raise e, tick 1 w))
        by (cbn [for_each]; unfold bind at 1; now rewrite Hraise).
      rewrite E. simpl. rewrite app_nil_r.
      split; [reflexivity | split; [reflexivity | split]].
      * intros Hlen. discriminate Hlen.
      * intros _. split; [now exists e | reflexivity].
Qed.

(** What one pass over the sockets [conns] does, start to end. *)
Lemma monitor_network_traffic_pass conns app w :
  fst (monitor_network_traffic (Ok conns) app w) = Ok tt
  /\ network_logs (db (snd (monitor_network_traffic (Ok conns) app w))) =
       network_logs (db w) ++
         rows_from app
           (take (stored_count (List.filter established conns) w)
              (List.filter established conns))
           (os_entropy w) (os_clock w) (uuid_calls w) (now_calls w)
  /\ (stored_count (List.filter established conns) w =
        length (List.filter established conns) ->
      app_firewall_log (snd (monitor_network_traffic (Ok conns) app w)) =
        app_firewall_log w)
  /\ ((stored_count (List.filter established conns) w <
         length (List.filter established conns))%nat ->
      (exists msg,
          app_firewall_log (snd (monitor_network_traffic (Ok conns) app w)) =
            app_firewall_log w ++ [msg])
      /\ uuid_calls (snd (monitor_network_traffic (Ok conns) app w)) =
           (S (stored_count (List.filter established conns) w) + uuid_calls w)%nat).
Proof.
  destruct (for_each_monitor_body_run app (List.filter established conns) w
              (forallb_filter_same established conns))
    as (Hlogs & Hlog & Hfull & Hpart).
  rewrite monitor_network_traffic_unfold.
  destruct (for_each _ _ w) as [[[] | e] w1] eqn:Hloop; simpl in *.
  - split; [reflexivity | split; [exact Hlogs | split]].
    + intros _. exact Hlog.
    + intros Hlt. destruct (Hpart Hlt) as [[e He] _]. discriminate He.
  - rewrite (for_each_monitor_body_raises app
               (List.filter established conns) w e) by now rewrite Hloop.
    simpl. split; [reflexivity | split; [exact Hlogs | split]].
    + intros Hlen. destruct (Hfull Hlen) as [Hok _]. discriminate Hok.
    + intros Hlt. split; [rewrite Hlog; eauto |].
      now destruct (Hpart Hlt) as [_ Hu].
Qed.

(** C6, as the code has it: whatever [psutil.net_connections()] returns or
    raises (an [Exception]), the pass returns normally.  A failure of the
    enumeration is caught and logged, and nothing is stored.  Over the
    established sockets the pass stores the rows of the leading run of
    sockets it can store (counters readable and within 64 bits, id unused)
    and ends at the first socket that fails: no row for it, none for the
    sockets after it, which are not even looked at (the number of ids drawn
    is the length of the run plus one), and one error line is logged. *)
Theorem monitor_network_traffic_stops_at_first_failure
    (net_connections : result (list sconn)) (app_name : string) (w : world) :
  (forall e, net_connections = Raise e -> is_Exception e = true) ->
  fst (monitor_network_traffic net_connections app_name w) = Ok tt
  /\ (forall e, net_connections = Raise e ->
        db (snd (monitor_network_traffic net_connections app_name w)) = db w
        /\ app_firewall_log (snd (monitor_network_traffic net_connections app_name w)) =
             app_firewall_log w ++ ["Network monitoring error: " +:+ exn_msg e])
  /\ (forall conns, net_connections = Ok conns ->
        network_logs (db (snd (monitor_network_traffic net_connections app_name w))) =
          network_logs (db w) ++
            rows_from app_name
              (take (stored_count (List.filter established conns) w)
                 (List.filter established conns))
              (os_entropy w) (os_clock w) (uuid_calls w) (now_calls w)
        /\ (stored_count (List.filter established conns) w =
              length (List.filter established conns) ->
            app_firewall_log (snd (monitor_network_traffic net_connections app_name w)) =
              app_firewall_log w)
        /\ ((stored_count (List.filter established conns) w <
               length (List.filter established conns))%nat ->
            (exists msg,
                app_firewall_log
                  (snd (monitor_network_traffic net_connections app_name w)) =
                  app_firewall_log w ++ [msg])
            /\ uuid_calls (snd (monitor_network_traffic net_connections app_name w)) =
                 (S (stored_count (List.filter established conns) w)
                  + uuid_calls w)%nat)).
Proof.
  intros Henum. destruct net_connections as [conns | e].
  - destruct (monitor_network_traffic_pass conns app_name w)
      as (Hok & Hlogs & Hfull & Hpart).
    split; [exact Hok | split].
    + intros e H. discriminate H.
    + intros conns' [= <-]. auto.
  - rewrite (monitor_network_traffic_enumeration_failure e app_name w (Henum e eq_refl)).
    simpl. split; [reflexivity | split].
    + intros e' [= <-]. split; reflexivity.
    + intros conns H. discriminate H.
Qed.


(** ** The policy store *)

Lemma filter_other_ids_fresh (id : string) (l : list policy_row) :
  ~ In id (map pol_id l) ->
  List.filter (fun p => negb (String.eqb (pol_id p) id)) l = l.
Proof.
  induction l as [| p l IH]; intros H; simpl in *; [reflexivity |].
  destruct (String.eqb_spec (pol_id p) id) as [Heq | Hne]; simpl.
  - exfalso. apply H. now left.
  - f_equal. apply IH. intros Hin. apply H. now right.
Qed.

Lemma create_policy_eq (data : policy_request) (app_name : string) (w : world) :
  req_app_name data = Some app_name ->
  create_policy data w =
    (Ok success_response,
     set_db (snd (uuid4 w))
       (sql_insert_or_replace_policy
          (policy_row_of (os_entropy w (uuid_calls w)) app_name data) (db w))).
Proof.
  intros H. unfold create_policy, bind, uuid4, modify_db, ret. simpl.
  rewrite H. reflexivity.
Qed.

(** C2, as the code has it: a [create_policy] call stores the request under
    a newly generated id; it removes a stored row only if that row has the
    very same id, and every other stored row, active rows of the same
    [app_name] included, is kept as it is.  With an unused id the table is
    the old one followed by the new row, so the number of active rows for
    the [app_name] grows by one for an active request and stays for an
    inactive one. *)
Theorem create_policy_adds_a_row
    (data : policy_request) (app_name : string) (w : world) :
  req_app_name data = Some app_name ->
  let id := os_entropy w (uuid_calls w) in
  let w' := snd (create_policy data w) in
  fst (create_policy data w) = Ok success_response
  /\ app_policies (db w') =
       List.filter (fun p => negb (String.eqb (pol_id p) id)) (app_policies (db w))
       ++ [policy_row_of id app_name data]
  /\ (forall p, In p (app_policies (db w)) -> pol_id p <> id ->
        In p (app_policies (db w')))
  /\ (~ In id (map pol_id (app_policies (db w))) ->
        app_policies (db w') = app_policies (db w) ++ [policy_row_of id app_name data]
        /\ length (active_policies app_name (db w')) =
             (length (active_policies app_name (db w))
              + (if default true (req_is_active data) then 1 else 0))%nat).
Proof.
  intros Hname id w'. subst id w'.
  rewrite (create_policy_eq data app_name w Hname). simpl.
  split; [reflexivity | split; [reflexivity | split]].
  - intros p Hin Hne. apply in_or_app. left.
    apply filter_In. split; [exact Hin |].
    destruct (String.eqb_spec (pol_id p) (os_entropy w (uuid_calls w)));
      [contradiction | reflexivity].
  - intros Hfresh. rewrite filter_other_ids_fresh by exact Hfresh.
    split; [reflexivity |].
    unfold active_policies. simpl.
    rewrite filter_other_ids_fresh by exact Hfresh.
    rewrite List.filter_app, length_app. simpl.
    rewrite String.eqb_refl. simpl.
    destruct (default true (req_is_active data)); reflexivity.
Qed.

(** * Further properties of the agent, the console and the scripts *)

(** ** Querying what was appended *)

Lemma sql_select_logs_by_app_app app (l1 l2 : list log_row) (d : database) :
  network_logs d = l1 ++ l2 ->
  sql_select_logs_by_app app d =
    List.filter (fun r => String.eqb (log_app_name r) app) l1
    ++ List.filter (fun r => String.eqb (log_app_name r) app) l2.
Proof.
  intros H. unfold sql_select_logs_by_app. rewrite H. apply List.filter_app.
Qed.

(** X1: a record appended under an unused id, its two byte counters being
    integers SQLite can hold (signed, 64 bits), is what [get_app_logs]
    returns last for the record's application, after everything it returned
    before: the five texts and two integers of the entry, the timestamp
    being [str] of the entry's datetime when that text is no numeric
    literal, and the number the text denotes when it is one.  For any other
    application the answer is as before. *)
Theorem append_then_get_app_logs (e : log_entry) (other : string) (w : world) :
  ~ In (entry_id e) (log_ids (db w)) ->
  fits_int64 (entry_bytes_sent e) = true ->
  fits_int64 (entry_bytes_received e) = true ->
  other <> entry_app_name e ->
  let w' := snd (_log_network_activity e w) in
  fst (_log_network_activity e w) = Ok tt
  /\ fst (get_app_logs (entry_app_name e) w') =
       Ok (sql_select_logs_by_app (entry_app_name e) (db w) ++
             [{| log_id := entry_id e;
                 log_app_name := entry_app_name e;
                 log_timestamp :=
                   if is_numeric_literal (datetime_str (entry_timestamp e))
                   then NumberOf (datetime_str (entry_timestamp e))
                   else KeptText (datetime_str (entry_timestamp e));
                 log_destination := entry_destination e;
                 log_protocol := entry_protocol e;
                 log_bytes_sent := entry_bytes_sent e;
                 log_bytes_received := entry_bytes_received e |}])
  /\ fst (get_app_logs other w') = fst (get_app_logs other w).
Proof.
  intros Hfresh Hs Hr Hother w'. subst w'.
  assert (Hfit : fits_int64 (entry_bytes_sent e)
                 && fits_int64 (entry_bytes_received e) = true)
    by now rewrite Hs, Hr.
  rewrite (log_network_activity_fresh_id e w Hfit Hfresh). simpl.
  unfold get_app_logs, gets. simpl.
  split; [reflexivity | split].
  - rewrite (sql_select_logs_by_app_app _ (network_logs (db w)) [row_of_entry e])
      by reflexivity.
    simpl. now rewrite String.eqb_refl.
  - rewrite (sql_select_logs_by_app_app _ (network_logs (db w)) [row_of_entry e])
      by reflexivity.
    simpl. destruct (String.eqb_spec (entry_app_name e) other) as [Heq | _].
    + exfalso. apply Hother. now symmetry.
    + now rewrite app_nil_r.
Qed.

(** ** Every pass of the collector *)

(** X2: whatever the sockets and whatever fails, the rows a pass adds are
    the rows of an initial run of the established sockets, in order, each
    under the [app_name] argument; stored rows and policies are left as they
    are. *)
Theorem monitor_network_traffic_adds_a_run
    (conns : list sconn) (app_name : string) (w : world) :
  let w' := snd (monitor_network_traffic (Ok conns) app_name w) in
  exists k,
    (k <= length (List.filter established conns))%nat
    /\ network_logs (db w') =
         network_logs (db w) ++
           rows_from app_name (take k (List.filter established conns))
             (os_entropy w) (os_clock w) (uuid_calls w) (now_calls w)
    /\ Forall (fun r => log_app_name r = app_name)
         (rows_from app_name (take k (List.filter established conns))
            (os_entropy w) (os_clock w) (uuid_calls w) (now_calls w))
    /\ app_policies (db w') = app_policies (db w).
Proof.
  intros w'. subst w'.
  destruct (for_each_monitor_body_prefix app_name
              (List.filter established conns) w
              (forallb_filter_same established conns))
    as (k & Hk & Hlogs & Hpol & _ & _).
  exists k. split; [exact Hk |].
  assert (Hrows : forall l entropy clock u n,
             Forall (fun r => log_app_name r = app_name)
               (rows_from app_name l entropy clock u n)).
  { induction l as [| c l IHl]; intros; simpl; constructor; auto. }
  rewrite monitor_network_traffic_unfold.
  destruct (for_each _ _ w) as [[[] | e] w1]; simpl in *.
  - repeat split; auto.
  - destruct (is_Exception e); simpl; repeat split; auto.
Qed.

Lemma rows_from_app_name app l entropy clock u n :
  Forall (fun r => log_app_name r = app) (rows_from app l entropy clock u n).
Proof.
  revert u n. induction l as [| c l IH]; intros u n; simpl; constructor; auto.
Qed.

Lemma filter_by_other_app (app other : string) (rows : list log_row) :
  other <> app ->
  Forall (fun r => log_app_name r = app) rows ->
  List.filter (fun r => String.eqb (log_app_name r) other) rows = [].
Proof.
  intros Hne. induction 1 as [| r rows Hr _ IH]; simpl; [reflexivity |].
  destruct (String.eqb_spec (log_app_name r) other) as [Heq | _]; [| exact IH].
  exfalso. apply Hne. now rewrite <- Heq, Hr.
Qed.

Lemma filter_by_same_app (app : string) (rows : list log_row) :
  Forall (fun r => log_app_name r = app) rows ->
  List.filter (fun r => String.eqb (log_app_name r) app) rows = rows.
Proof.
  induction 1 as [| r rows Hr _ IH]; simpl; [reflexivity |].
  rewrite Hr, String.eqb_refl. now f_equal.
Qed.

(** X3: after a pass called for [app_name], whatever happened in it,
    [get_app_logs] answers for every other application exactly what it
    answered before, and for [app_name] what it answered before followed by
    all the rows the pass stored. *)
Theorem monitor_then_get_app_logs
    (conns : list sconn) (app_name other : string) (w : world) :
  other <> app_name ->
  let w' := snd (monitor_network_traffic (Ok conns) app_name w) in
  fst (get_app_logs other w') = fst (get_app_logs other w)
  /\ exists new,
       network_logs (db w') = network_logs (db w) ++ new
       /\ fst (get_app_logs app_name w') =
            Ok (sql_select_logs_by_app app_name (db w) ++ new).
Proof.
  intros Hne w'.
  destruct (for_each_monitor_body_prefix app_name
              (List.filter established conns) w
              (forallb_filter_same established conns))
    as (k & _ & Hlogs & _ & _ & _).
  set (new := rows_from app_name (take k (List.filter established conns))
                (os_entropy w) (os_clock w) (uuid_calls w) (now_calls w)) in *.
  assert (Hw' : network_logs (db w') = network_logs (db w) ++ new).
  { subst w'. rewrite monitor_network_traffic_unfold.
    destruct (for_each _ _ w) as [[[] | e] w1]; simpl in *; [exact Hlogs |].
    destruct (is_Exception e); exact Hlogs. }
  pose proof (rows_from_app_name app_name
                (take k (List.filter established conns))
                (os_entropy w) (os_clock w) (uuid_calls w) (now_calls w)) as Hall.
  fold new in Hall.
  unfold get_app_logs, gets. simpl. split.
  - rewrite (sql_select_logs_by_app_app other _ _ (db w') Hw').
    now rewrite (filter_by_other_app app_name other new Hne Hall), app_nil_r.
  - exists new. split; [exact Hw' |].
    rewrite (sql_select_logs_by_app_app app_name _ _ (db w') Hw').
    now rewrite (filter_by_same_app app_name new Hall).
Qed.

Lemma filter_established_idem (conns : list sconn) :
  List.filter established (List.filter established conns) =
    List.filter established conns.
Proof.
  induction conns as [| c l IH]; simpl; [reflexivity |].
  destruct (established c) eqn:E; simpl; [rewrite E; now f_equal | exact IH].
Qed.

(** Sockets without a local or without a remote address play no part
    in a pass: the pass over all sockets returns what the pass over the
    established ones returns and leaves the same world; when no socket is
    established nothing happens at all (no id is drawn, the clock is not
    read, nothing is stored or logged). *)
Theorem monitor_network_traffic_ignores_unconnected
    (conns : list sconn) (app_name : string) (w : world) :
  monitor_network_traffic (Ok conns) app_name w =
    monitor_network_traffic (Ok (List.filter established conns)) app_name w
  /\ (List.filter established conns = [] ->
      monitor_network_traffic (Ok conns) app_name w = (Ok tt, w)).
Proof.
  split.
  - rewrite !monitor_network_traffic_unfold. now rewrite filter_established_idem.
  - intros Hnone. rewrite monitor_network_traffic_unfold, Hnone. reflexivity.
Qed.

(** ** Failures the process loop does not handle *)

(** The exception a process makes [get_running_processes] raise, if
    any. *)
Definition unhandled_failure (p : proc) : option exception :=
  match info p with
  | Raise e => if is_NoSuchProcess_or_AccessDenied e then None else Some e
  | Ok d =>
      match process_descriptor d with
      | Ok _ => None
      | Raise e => Some e
      end
  end.

Lemma get_running_processes_loop_unhandled (p : proc) (e : exception)
    (rest : list proc) (processes : list (gmap string pyval)) (w : world) :
  unhandled_failure p = Some e ->
  get_running_processes_loop (p :: rest) processes w = (Raise e, w).
Proof.
  unfold unhandled_failure. intros H. cbn [get_running_processes_loop].
  unfold bind at 1, try_except, bind, lift, ret.
  destruct (info p) as [d | e'].
  - destruct (process_descriptor d) as [entry | e'] eqn:Hd; [discriminate |].
    injection H as ->.
    assert (Hcls : exn_cls e = KeyError).
    { unfold process_descriptor in Hd.
      destruct (d !! "pid"); [| now injection Hd as <-].
      destruct (d !! "name"); [discriminate | now injection Hd as <-]. }
    unfold is_NoSuchProcess_or_AccessDenied. now rewrite Hcls.
  - destruct (is_NoSuchProcess_or_AccessDenied e') eqn:E; [discriminate |].
    injection H as ->. reflexivity.
Qed.

(** X4: the first process whose failure is neither [NoSuchProcess] nor
    [AccessDenied] (another exception on reading [info], or a missing
    [pid] or [name] key, which is a [KeyError]) makes the whole call raise
    that failure: no list is returned, the descriptors gathered before it
    are lost, and the processes after it are not looked at. *)
Theorem get_running_processes_raises_first_unhandled
    (pre : list proc) (p : proc) (post : list proc) (e : exception) (w : world) :
  Forall lookup_handled pre ->
  unhandled_failure p = Some e ->
  get_running_processes (pre ++ p :: post) w = (Raise e, w)
  /\ is_NoSuchProcess_or_AccessDenied e = false.
Proof.
  intros Hpre Hp. split.
  - unfold get_running_processes. generalize (@nil (gmap string pyval)).
    induction Hpre as [| q pre Hq _ IH]; intros acc.
    + now apply get_running_processes_loop_unhandled.
    + simpl. unfold lookup_handled in Hq.
      unfold bind at 1, try_except, bind, lift, ret.
      destruct (info q) as [d | e'].
      * destruct Hq as [[pv Hpid] [nv Hname]].
        unfold process_descriptor. rewrite Hpid, Hname. apply IH.
      * rewrite Hq. apply IH.
  - unfold unhandled_failure in Hp.
    destruct (info p) as [d | e'].
    + destruct (process_descriptor d) as [entry | e'] eqn:Hd; [discriminate |].
      injection Hp as ->. unfold process_descriptor in Hd.
      destruct (d !! "pid"); [| now injection Hd as <-].
      destruct (d !! "name"); [discriminate | now injection Hd as <-].
    + destruct (is_NoSuchProcess_or_AccessDenied e') eqn:E; [discriminate |].
      now injection Hp as <-.
Qed.

(** ** What the detector can return *)

Lemma select_rows_sublist (df : list log_row) (mask : list bool) :
  select_rows df mask `sublist_of` df.
Proof.
  revert mask. induction df as [| r df IH]; intros mask; simpl.
  - destruct mask; constructor.
  - destruct mask as [| b mask]; [apply sublist_nil_l |].
    destruct b; [apply sublist_skip | apply sublist_cons]; apply IH.
Qed.

Lemma select_rows_length (df : list log_row) (mask : list bool) :
  length mask = length df ->
  length (select_rows df mask) = length (List.filter (fun b => b) mask).
Proof.
  revert mask. induction df as [| r df IH]; intros [| b mask] H; simpl in *;
    try reflexivity; try discriminate.
  destruct b; simpl; rewrite IH by lia; reflexivity.
Qed.

Lemma forest_outliers_sublist (df rows : list log_row) :
  forest_outliers df = Ok rows -> rows `sublist_of` df.
Proof.
  unfold forest_outliers, boolean_index.
  destruct (forest_fit _ _ _) as [fitted | e]; [| discriminate].
  destruct (forest_predict _ _) as [predictions | e]; [| discriminate].
  destruct (Nat.eqb _ _); [| discriminate].
  intros [= <-]. apply select_rows_sublist.
Qed.

(** X5: whatever the forest answers, the records [detect_anomalies] returns
    are stored records, each at most as often as it is stored and in
    storage order (a sublist of [network_logs]); the call leaves the
    database as it is. *)
Theorem detect_anomalies_returns_stored_rows (w : world) (rows : list log_row) :
  fst (detect_anomalies w) = Ok rows ->
  rows `sublist_of` network_logs (db w)
  /\ (length rows <= length (network_logs (db w)))%nat
  /\ db (snd (detect_anomalies w)) = db w.
Proof.
  intros H. rewrite detect_anomalies_result in H.
  assert (Hsub : rows `sublist_of` network_logs (db w)).
  { destruct (_ <? _)%nat.
    - injection H as <-. apply sublist_nil_l.
    - destruct (forest_outliers _) as [rows' | e] eqn:Hf.
      + injection H as <-. now apply forest_outliers_sublist.
      + destruct (is_Exception e); [| discriminate].
        injection H as <-. apply sublist_nil_l. }
  split; [exact Hsub | split].
  - now apply sublist_length.
  - apply detect_anomalies_db.
Qed.

(** ** The dashboard *)

(** X6: when every process lookup is handled, what the dashboard returns
    is what [render_template] gives for ['dashboard.html'], the process list
    of [get_running_processes] and the anomalies [detect_anomalies] reports
    on the store as it is: the page, or the exception rendering raises (a
    missing template file is [TemplateNotFound]), which the view does not
    catch.  An exception the detector lets through (one that does not
    derive from [Exception]) is not caught either, and nothing is rendered.
    The database is left unchanged in every case. *)
Theorem dashboard_shows_processes_and_anomalies
    (process_iter : list proc) (w : world) :
  Forall lookup_handled process_iter ->
  fst (dashboard process_iter w) =
    match fst (detect_anomalies w) with
    | Ok anomalies =>
        render_template "dashboard.html" (omap descriptor_of process_iter) anomalies
    | Raise e => Raise e
    end
  /\ db (snd (dashboard process_iter w)) = db w.
Proof.
  intros Hall. split; [| apply dashboard_db].
  set (w1 := snd (new_agent w)).
  assert (Hlogs : network_logs (db w1) = network_logs (db w)) by reflexivity.
  assert (Hrun : dashboard process_iter w =
                 match try_except detect_anomalies is_Exception
                         (fun e =>
                            logging_error
                              ("Dashboard anomaly detection error: " +:+ exn_msg e) ;;;
                            ret []) w1 with
                 | (Ok anomalies, w2) =>
                     (render_template "dashboard.html"
                        (omap descriptor_of process_iter) anomalies, w2)
                 | (Raise e, w2) => (Raise e, w2)
                 end).
  { unfold dashboard. unfold bind at 1. fold w1.
    replace (new_agent w) with (Ok (os_entropy w (uuid_calls w)), w1) by reflexivity.
    unfold bind at 1. unfold get_running_processes.
    rewrite (get_running_processes_loop_handled process_iter Hall [] w1).
    simpl. unfold bind at 1.
    destruct (try_except _ _ _ w1) as [[a | e] w2]; reflexivity. }
  rewrite Hrun. unfold try_except.
  pose proof (detect_anomalies_result w1) as H1.
  pose proof (detect_anomalies_result w) as H0.
  rewrite Hlogs in H1. rewrite <- H0 in H1.
  destruct (detect_anomalies w1) as [[a | e] w2]; simpl in H1; rewrite <- H1.
  - reflexivity.
  - assert (Hexc : is_Exception e = false).
    { rewrite H0 in H1.
      destruct (_ <? _)%nat; [discriminate |].
      destruct (forest_outliers _) as [rows | e']; [discriminate |].
      destruct (is_Exception e') eqn:E; [discriminate |].
      now injection H1 as ->. }
    now rewrite Hexc.
Qed.

(** ** Creating policies *)

(** X7: a request body without [app_name] makes [create_policy] raise
    [KeyError]; no row is stored and the database is untouched, although an
    id has already been generated for the row. *)
Theorem create_policy_missing_app_name (data : policy_request) (w : world) :
  req_app_name data = None ->
  exists e,
    create_policy data w = (Raise e, snd (uuid4 w))
    /\ exn_cls e = KeyError
    /\ db (snd (create_policy data w)) = db w
    /\ uuid_calls (snd (create_policy data w)) = S (uuid_calls w).
Proof.
  intros H. exists (Exn KeyError "'app_name'").
  unfold create_policy, bind, uuid4, raise. simpl. rewrite H. repeat split.
Qed.

Lemma string_append_assoc (a b c : string) : (a +:+ b) +:+ c = a +:+ (b +:+ c).
Proof.
  induction a as [| ch a IH]; [reflexivity |].
  change (String ch ((a +:+ b) +:+ c) = String ch (a +:+ (b +:+ c))).
  now rewrite IH.
Qed.

Lemma join_comma_merge (x y : string) (l : list string) :
  join_comma (x :: y :: l) = join_comma ((x +:+ "," +:+ y) :: l).
Proof.
  unfold join_comma. destruct l as [| z l]; [reflexivity |].
  cbn [String.concat]. now rewrite !string_append_assoc.
Qed.

Definition with_domains (data : policy_request) (l : option (list string))
    : policy_request :=
  {| req_app_name := req_app_name data;
     req_allowed_domains := l;
     req_allowed_ips := req_allowed_ips data;
     req_allowed_protocols := req_allowed_protocols data;
     req_is_active := req_is_active data |}.

(** X8: the comma-separated text [create_policy] stores does not keep the
    boundaries of the list it was given: a list holding [x] and [y] and a
    list holding the single entry [x,y] are stored as the same row, and so
    are a missing list, an empty list and a list holding one empty
    string. *)
Theorem create_policy_csv_not_injective
    (data : policy_request) (x y : string) (l : list string) (w : world) :
  create_policy (with_domains data (Some (x :: y :: l))) w =
    create_policy (with_domains data (Some ((x +:+ "," +:+ y) :: l))) w
  /\ create_policy (with_domains data None) w =
       create_policy (with_domains data (Some [])) w
  /\ create_policy (with_domains data (Some [""])) w =
       create_policy (with_domains data (Some [])) w.
Proof.
  unfold create_policy, with_domains. simpl.
  rewrite (join_comma_merge x y l). repeat split.
Qed.

(** [create_policy] never touches [network_logs]: whether it returns
    or raises, the stored records, the answer of [get_app_logs] for every
    application and the outcome of [detect_anomalies] are what they were
    before the call. *)
Theorem create_policy_keeps_logs (data : policy_request) (app : string) (w : world) :
  let w' := snd (create_policy data w) in
  network_logs (db w') = network_logs (db w)
  /\ fst (get_app_logs app w') = fst (get_app_logs app w)
  /\ fst (detect_anomalies w') = fst (detect_anomalies w).
Proof.
  intros w'.
  assert (H : network_logs (db w') = network_logs (db w)).
  { subst w'. unfold create_policy, bind, uuid4, raise, modify_db, ret. simpl.
    destruct (req_app_name data); reflexivity. }
  split; [exact H | split].
  - unfold get_app_logs, gets, sql_select_logs_by_app. simpl. now rewrite H.
  - rewrite !detect_anomalies_result. now rewrite H.
Qed.

(** ** Clearing the logs *)

(** [cleanup_network_logs] removes records only: the policies are
    kept as they are, [get_app_logs] answers the empty list for every
    application afterwards, a success line is printed, and a second run
    leaves the same database as the first. *)
Theorem cleanup_network_logs_keeps_policies (app : string) (w : world) :
  let w' := snd (cleanup_network_logs w) in
  app_policies (db w') = app_policies (db w)
  /\ fst (get_app_logs app w') = Ok []
  /\ stdout w' = stdout w ++ ["Network logs have been successfully cleared."]
  /\ db (snd (cleanup_network_logs w')) = db w'.
Proof. intros w'. subst w'. repeat split. Qed.

(** ** Primary keys *)

(** Both tables have pairwise distinct ids. *)
Definition keys_distinct (d : database) : Prop :=
  NoDup (log_ids d) /\ NoDup (map pol_id (app_policies d)).

Definition keys_kept (w w' : world) : Prop :=
  keys_distinct (db w) -> keys_distinct (db w').

Lemma keys_kept_refl w : keys_kept w w.
Proof. unfold keys_kept. auto. Qed.

Lemma keys_kept_trans w1 w2 w3 :
  keys_kept w1 w2 -> keys_kept w2 w3 -> keys_kept w1 w3.
Proof. unfold keys_kept. auto. Qed.

Lemma db_unchanged_keys_kept w w' : db_unchanged w w' -> keys_kept w w'.
Proof. unfold db_unchanged, keys_kept. now intros ->. Qed.

Lemma log_network_activity_keys e : respects keys_kept (_log_network_activity e).
Proof.
  intros w [Hlogs Hpols]. unfold _log_network_activity.
  destruct (sql_insert_log_cases (row_of_entry e) (db w))
    as [[ex [-> _]] | [-> Hfresh]]; simpl; [now split |].
  split; [| exact Hpols].
  unfold log_ids. simpl. rewrite map_app. simpl.
  apply NoDup_app. split; [exact Hlogs | split].
  - intros x Hx Hin. apply list_elem_of_singleton in Hin. subst x.
    apply list_elem_of_In in Hx. now apply Hfresh.
  - apply NoDup_singleton.
Qed.

Lemma replace_policy_keys (r : policy_row) (l : list policy_row) :
  NoDup (map pol_id l) ->
  NoDup (map pol_id
           (List.filter (fun p => negb (String.eqb (pol_id p) (pol_id r))) l ++ [r])).
Proof.
  intros H. rewrite map_app. simpl. apply NoDup_app. split; [| split].
  - induction l as [| p l IH]; simpl in *; [constructor |].
    apply NoDup_cons in H as [Hp Hl].
    destruct (String.eqb (pol_id p) (pol_id r)); simpl; [now apply IH |].
    apply NoDup_cons. split; [| now apply IH].
    intros Hin. apply Hp. apply list_elem_of_fmap in Hin as (q & -> & Hq).
    apply list_elem_of_fmap. exists q. split; [reflexivity |].
    apply list_elem_of_In in Hq. apply filter_In in Hq as [Hq _].
    now apply list_elem_of_In.
  - intros x Hx Hin. apply list_elem_of_singleton in Hin. subst x.
    apply list_elem_of_fmap in Hx as (q & Heq & Hq).
    apply list_elem_of_In in Hq. apply filter_In in Hq as [_ Hq].
    rewrite <- Heq, String.eqb_refl in Hq. discriminate.
  - apply NoDup_singleton.
Qed.

Lemma modify_db_replace_policy_keys r :
  respects keys_kept (modify_db (sql_insert_or_replace_policy r)).
Proof.
  intros w [Hlogs Hpols]. split; [exact Hlogs |]. simpl.
  now apply replace_policy_keys.
Qed.

Lemma modify_db_delete_logs_keys : respects keys_kept (modify_db sql_delete_all_logs).
Proof. intros w [_ Hpols]. split; [constructor | exact Hpols]. Qed.

#[local] Hint Resolve keys_kept_refl keys_kept_trans log_network_activity_keys
  modify_db_replace_policy_keys modify_db_delete_logs_keys : respects_db.

Ltac step_keys :=
  lazymatch goal with
  | |- respects _ (ret _) => apply respects_ret; solve [eauto with respects_db]
  | |- respects _ (raise _) => apply respects_raise; solve [eauto with respects_db]
  | |- respects _ (lift _) => apply respects_lift; solve [eauto with respects_db]
  | |- respects _ (gets _) => apply respects_gets; solve [eauto with respects_db]
  | |- respects _ (bind _ _) =>
      apply respects_bind; [solve [eauto with respects_db] | | intros ?]
  | |- respects _ (try_except _ _ _) =>
      apply respects_try_except; [solve [eauto with respects_db] | | intros ?]
  | |- respects _ (for_each _ _) =>
      apply respects_for_each;
      [solve [eauto with respects_db] | solve [eauto with respects_db] | intros ?]
  | |- respects _ (match ?x with _ => _ end) => destruct x
  | |- respects keys_kept _ =>
      first [ solve [eauto with respects_db]
            | apply (respects_weaken db_unchanged);
              [exact db_unchanged_keys_kept | solve [eauto with respects_db]] ]
  end.

Lemma run_operation_keys op w : keys_kept w (run_operation op w).
Proof.
  destruct op; unfold run_operation.
  - apply db_unchanged_keys_kept, init_db_db.
  - assert (Hr : respects keys_kept new_agent)
      by (unfold new_agent; repeat step_keys).
    apply Hr.
  - apply db_unchanged_keys_kept, get_running_processes_db.
  - assert (Hr : respects keys_kept (monitor_network_traffic net_connections app_name))
      by (unfold monitor_network_traffic, monitor_body; repeat step_keys).
    apply Hr.
  - apply log_network_activity_keys.
  - apply db_unchanged_keys_kept, detect_anomalies_db.
  - apply db_unchanged_keys_kept, dashboard_db.
  - assert (Hr : respects keys_kept (create_policy data))
      by (unfold create_policy; repeat step_keys).
    apply Hr.
  - apply db_unchanged_keys_kept, get_app_logs_db.
  - assert (Hr : respects keys_kept cleanup_network_logs)
      by (unfold cleanup_network_logs; repeat step_keys).
    apply Hr.
Qed.

(** X9: ids stay primary keys.  If the ids of [network_logs] are pairwise
    distinct and so are those of [app_policies], they still are after any
    sequence of operations of the agent, the console and the cleanup,
    whatever these return or raise, and whatever ids the generator
    produces. *)
Theorem run_operations_keep_keys_distinct (ops : list operation) (w : world) :
  keys_distinct (db w) -> keys_distinct (db (run_operations ops w)).
Proof.
  unfold run_operations. revert w.
  induction ops as [| op ops IH]; intros w H; simpl; [exact H |].
  apply IH. now apply run_operation_keys.
Qed.

(** ** [anomaly_test_script.generate_test_logs] *)

(** [for _ in range(n): st = body st] *)
Fixpoint repeat_m {S} (n : nat) (body : S -> M S) (st : S) : M S :=
  match n with
  | O => ret st
  | S n' => st' <- body st ;; repeat_m n' body st'
  end.

(** [random.randint(a, b)], which is [a + self._randbelow(b - a + 1)]: a
    number from [a] to [b], both included.  [random k] is what the generator
    draws at the [k]-th call of the process, reduced to the width of the
    range. *)
Definition random_randint (random : nat -> Z) (k : nat) (a b : Z) : Z :=
  a + random k mod (b - a + 1).

(** The row one [cursor.execute] of the seeding loops stores.  [randint k a b]
    is what the [k]-th call of the process to [random.randint] returns when
    asked for [a] and [b]; within a row the calls are made in the order of
    the tuple: destination, bytes sent, bytes received. *)
Definition test_row (app_name protocol destination_prefix : string)
    (dest_lo dest_hi lo hi : Z) (randint : nat -> Z -> Z -> Z)
    (id : string) (timestamp : datetime) (k : nat) : log_row :=
  {| log_id := id;
     log_app_name := app_name;
     log_timestamp := numeric_affinity (datetime_str timestamp);
     log_destination := destination_prefix +:+ str_int (randint k dest_lo dest_hi);
     log_protocol := protocol;
     log_bytes_sent := randint (S k) lo hi;
     log_bytes_received := randint (S (S k)) lo hi |}.

(** One turn of a seeding loop.  The state is the table as the open
    transaction sees it and the number of [randint] calls made so far;
    nothing reaches the file before [conn.commit()]. *)
Definition insert_test_row (app_name protocol destination_prefix : string)
    (dest_lo dest_hi lo hi : Z) (randint : nat -> Z -> Z -> Z)
    (st : database * nat) : M (database * nat) :=
  id <- uuid4 ;;
  timestamp <- now ;;
  txn <- lift (sql_insert_log
                 (test_row app_name protocol destination_prefix dest_lo dest_hi
                    lo hi randint id timestamp (snd st))
                 (fst st)) ;;
  ret (txn, S (S (S (snd st)))).

Definition generate_test_logs (random : nat -> Z) : M unit :=
  opened <- gets db ;;
  normal <- repeat_m 50
              (insert_test_row "chrome.exe" "TCP" "192.168.1." 1 255 100 5000
                 (random_randint random))
              (opened, 0%nat) ;;
  anomalous <- repeat_m 5
                 (insert_test_row "suspicious_app.exe" "UDP" "unknown_host_"
                    1 100 50000 500000 (random_randint random))
                 normal ;;
  modify_db (fun _ => fst anomalous) ;;;
  print "Test logs generated successfully!".

(** ** [anomaly_debug_script.debug_anomaly_detection] *)

(** [print] of the four-column frame of anomalous rows, as pandas formats
    it. *)
Variable frame_str : list (string * string * Z * Z) -> string.

(** scikit-learn's [OutlierMixin.fit_predict]: [self.fit(X).predict(X)]. *)
Definition fit_predict (clf : IsolationForest) (X : list (Z * Z)) : M (list Z) :=
  fitted <- fit clf X ;;
  lift (forest_predict fitted X).

(** [df['is_anomaly'] = values]: pandas refuses a column whose length is not
    the frame's. *)
Definition set_column (df : list log_row) (values : list bool) : result (list bool) :=
  if Nat.eqb (length values) (length df)
  then Ok values
  else Raise (Exn ValueError "Length of values does not match length of index").

Definition newline : string := String (ascii_of_nat 10) EmptyString.

Definition details_of (rows : list log_row) : list (string * string * Z * Z) :=
  map (fun r => (log_app_name r, log_destination r, log_bytes_sent r,
                 log_bytes_received r)) rows.

(** The script returns nothing; the value returned here is what it hands to
    the two [plt.scatter] calls, the normal points first. *)
Definition debug_anomaly_detection : M (list (Z * Z) * list (Z * Z)) :=
  df <- gets (fun w => sql_select_all_logs (db w)) ;;
  let features := features_of df in
  let clf := {| contamination := Qmake 1 10; random_state := Some 42 |} in
  predictions <- fit_predict clf features ;;
  is_anomaly <- lift (set_column df (map (Z.eqb (-1)) predictions)) ;;
  print (newline +:+ "--- Anomaly Detection Report ---") ;;;
  print ("Total Logs: " +:+ str_int (Z.of_nat (length df))) ;;;
  print ("Anomalous Logs: "
         +:+ str_int (Z.of_nat (length (List.filter (fun b => b) is_anomaly)))) ;;;
  print (newline +:+ "Anomalous Log Details:") ;;;
  let anomalies := select_rows df is_anomaly in
  print (frame_str (details_of anomalies)) ;;;
  ret (features_of (select_rows df (map negb is_anomaly)),
       features_of (select_rows df is_anomaly)).

(** The rows [n] turns of a seeding loop bind, the first with the [u]-th id,
    the [c]-th clock reading and the [k]-th random number. *)
Fixpoint test_rows (n : nat) (app_name protocol destination_prefix : string)
    (dest_lo dest_hi lo hi : Z) (randint : nat -> Z -> Z -> Z)
    (entropy : nat -> string) (clock : nat -> datetime) (u c k : nat)
    : list log_row :=
  match n with
  | O => []
  | S n' =>
      test_row app_name protocol destination_prefix dest_lo dest_hi lo hi randint
        (entropy u) (clock c) k
      :: test_rows n' app_name protocol destination_prefix dest_lo dest_hi lo hi
           randint entropy clock (S u) (S c) (S (S (S k)))
  end.

(** What the forest labels, as a value. *)
Definition forest_labels (df : list log_row) : result (list Z) :=
  match forest_fit (Qmake 1 10) (RandomState 42) (features_of df) with
  | Raise e => Raise e
  | Ok fitted => forest_predict fitted (features_of df)
  end.

Section Seeding.

Variables (app_name protocol destination_prefix : string).
Variables (dest_lo dest_hi lo hi : Z).
Variable randint : nat -> Z -> Z -> Z.

(** The byte counts drawn can be bound. *)
Hypothesis randint_fits : forall k, fits_int64 (randint k lo hi) = true.

Let body := insert_test_row app_name protocol destination_prefix dest_lo dest_hi
              lo hi randint.
Let rows n entropy clock u c k :=
  test_rows n app_name protocol destination_prefix dest_lo dest_hi lo hi randint
    entropy clock u c k.

Lemma tick_tick (a b : nat) (w : world) : tick a (tick b w) = tick (a + b) w.
Proof. unfold tick. simpl. now rewrite !Nat.add_assoc. Qed.

Lemma test_rows_length n entropy clock u c k :
  length (rows n entropy clock u c k) = n.
Proof.
  unfold rows. revert u c k.
  induction n as [| n IH]; intros; simpl; [reflexivity | now rewrite IH].
Qed.

Lemma test_rows_ids n entropy clock u c k :
  map log_id (rows n entropy clock u c k) = map entropy (seq u n).
Proof.
  unfold rows. revert u c k.
  induction n as [| n IH]; intros; simpl; [reflexivity | now rewrite IH].
Qed.

Lemma test_rows_shape n entropy clock u c k :
  Forall (fun r =>
            log_app_name r = app_name /\ log_protocol r = protocol
            /\ (exists j, log_bytes_sent r = randint j lo hi)
            /\ (exists j, log_bytes_received r = randint j lo hi))
    (rows n entropy clock u c k).
Proof.
  unfold rows. revert u c k.
  induction n as [| n IH]; intros; simpl; constructor; [| apply IH].
  simpl. repeat split; eauto.
Qed.

Lemma insert_test_row_cases (st : database * nat) (w : world) :
  body st w =
    (Ok (set_network_logs (fst st)
           (network_logs (fst st) ++
              [test_row app_name protocol destination_prefix dest_lo dest_hi lo hi
                 randint (os_entropy w (uuid_calls w)) (os_clock w (now_calls w))
                 (snd st)]),
         S (S (S (snd st)))),
     tick 1 w)
    /\ ~ In (os_entropy w (uuid_calls w)) (log_ids (fst st))
  \/ (exists e, body st w = (Raise e, tick 1 w) /\ exn_cls e = IntegrityError)
     /\ In (os_entropy w (uuid_calls w)) (log_ids (fst st)).
Proof.
  unfold body, insert_test_row, bind, uuid4, now, lift, ret, sql_insert_log. simpl.
  rewrite !randint_fits. simpl.
  destruct (mem_string _ _) eqn:E.
  - right. split; [eexists; split; reflexivity |]. now apply mem_string_In.
  - left. split; [reflexivity |].
    intros Hin. apply mem_string_In in Hin. congruence.
Qed.

(** A seeding loop never writes to the file: it only draws ids and reads
    the clock. *)
Lemma repeat_insert_world n : forall st w,
  exists j, (j <= n)%nat /\ snd (repeat_m n body st w) = tick j w.
Proof.
  induction n as [| n IH]; intros st w; simpl.
  - exists 0%nat. split; [lia |]. unfold ret, tick. simpl.
    destruct w. reflexivity.
  - unfold bind.
    destruct (insert_test_row_cases st w) as [[-> _] | [[e [-> _]] _]].
    + destruct (IH (set_network_logs (fst st)
                      (network_logs (fst st) ++
                         [test_row app_name protocol destination_prefix dest_lo
                            dest_hi lo hi randint (os_entropy w (uuid_calls w))
                            (os_clock w (now_calls w)) (snd st)]),
                    S (S (S (snd st)))) (tick 1 w)) as [j [Hj H]].
      exists (S j). split; [lia |]. rewrite H, tick_tick. f_equal. lia.
    + exists 1%nat. split; [lia | reflexivity].
Qed.

Lemma repeat_insert_db n st w : db (snd (repeat_m n body st w)) = db w.
Proof. destruct (repeat_insert_world n st w) as [j [_ ->]]; reflexivity. Qed.

Lemma repeat_insert_stdout n st w : stdout (snd (repeat_m n body st w)) = stdout w.
Proof. destruct (repeat_insert_world n st w) as [j [_ ->]]; reflexivity. Qed.

(** With unused ids every turn stores its row. *)
Lemma repeat_insert_ok n : forall st w,
  NoDup (log_ids (fst st) ++ map (os_entropy w) (seq (uuid_calls w) n)) ->
  repeat_m n body st w =
    (Ok (set_network_logs (fst st)
           (network_logs (fst st) ++
              rows n (os_entropy w) (os_clock w) (uuid_calls w) (now_calls w)
                (snd st)),
         (3 * n + snd st)%nat),
     tick n w).
Proof.
  induction n as [| n IH]; intros st w Hfresh.
  - simpl. unfold ret, tick, set_network_logs, rows. simpl. rewrite app_nil_r.
    destruct st as [[pols logs] k]. destruct w. reflexivity.
  - cbn [repeat_m]. unfold bind at 1.
    destruct (insert_test_row_cases st w) as [[-> _] | [_ Hin]].
    + rewrite IH.
      * simpl. rewrite tick_tick, <- app_assoc. simpl.
        do 2 f_equal; [f_equal; lia | f_equal; lia].
      * simpl in *. unfold log_ids in *. simpl.
        rewrite map_app, <- app_assoc. simpl. exact Hfresh.
    + exfalso. simpl in Hfresh. apply NoDup_app in Hfresh as (_ & Hdisj & _).
      apply (Hdisj (os_entropy w (uuid_calls w))).
      * now apply list_elem_of_In.
      * left.
Qed.

(** A loop that returns has added one row per turn at the end of the
    pending table; a loop that raises has met a stored id. *)
Lemma repeat_insert_result n : forall st w,
  match fst (repeat_m n body st w) with
  | Ok st' =>
      exists new,
        network_logs (fst st') = network_logs (fst st) ++ new
        /\ length new = n
        /\ app_policies (fst st') = app_policies (fst st)
  | Raise e => exn_cls e = IntegrityError
  end.
Proof.
  induction n as [| n IH]; intros st w.
  - simpl. exists []. now rewrite app_nil_r.
  - cbn [repeat_m]. unfold bind at 1.
    destruct (insert_test_row_cases st w) as [[-> _] | [[e [-> He]] _]].
    + specialize (IH (set_network_logs (fst st)
                        (network_logs (fst st) ++
                           [test_row app_name protocol destination_prefix dest_lo
                              dest_hi lo hi randint (os_entropy w (uuid_calls w))
                              (os_clock w (now_calls w)) (snd st)]),
                      S (S (S (snd st)))) (tick 1 w)).
      destruct (fst (repeat_m n body _ (tick 1 w))) as [st' | e]; [| exact IH].
      destruct IH as (new & Hlogs & Hlen & Hpol). simpl in *.
      eexists (_ :: new). rewrite Hlogs, <- app_assoc. simpl.
      repeat split; [now rewrite Hlen | exact Hpol].
    + exact He.
Qed.

End Seeding.

Lemma random_randint_bounds (random : nat -> Z) (k : nat) (a b : Z) :
  a <= b -> a <= random_randint random k a b <= b.
Proof.
  intros H. unfold random_randint.
  pose proof (Z.mod_pos_bound (random k) (b - a + 1)). lia.
Qed.

Lemma random_randint_fits (random : nat -> Z) (a b : Z) :
  a <= b -> - (2 ^ 63) <= a -> b < 2 ^ 63 ->
  forall k, fits_int64 (random_randint random k a b) = true.
Proof.
  intros Hab Ha Hb k. apply fits_int64_spec.
  pose proof (random_randint_bounds random k a b Hab). lia.
Qed.

Lemma normal_counts_fit (random : nat -> Z) :
  forall k, fits_int64 (random_randint random k 100 5000) = true.
Proof. apply random_randint_fits; lia. Qed.

Lemma anomalous_counts_fit (random : nat -> Z) :
  forall k, fits_int64 (random_randint random k 50000 500000) = true.
Proof. apply random_randint_fits; lia. Qed.

Lemma generate_test_logs_unfold (random : nat -> Z) (w : world) :
  generate_test_logs random w =
    match repeat_m 50
            (insert_test_row "chrome.exe" "TCP" "192.168.1." 1 255 100 5000
               (random_randint random))
            (db w, 0%nat) w with
    | (Raise e, w1) => (Raise e, w1)
    | (Ok normal, w1) =>
        match repeat_m 5
                (insert_test_row "suspicious_app.exe" "UDP" "unknown_host_"
                   1 100 50000 500000 (random_randint random))
                normal w1 with
        | (Raise e, w2) => (Raise e, w2)
        | (Ok anomalous, w2) =>
            print "Test logs generated successfully!" (set_db w2 (fst anomalous))
        end
    end.
Proof.
  unfold generate_test_logs. unfold bind at 1. unfold gets at 1.
  unfold bind at 1.
  destruct (repeat_m 50 _ _ w) as [[normal | e] w1]; [| reflexivity].
  unfold bind at 1.
  destruct (repeat_m 5 _ _ w1) as [[anomalous | e] w2]; reflexivity.
Qed.

(** X10: with 55 unused ids ahead, [generate_test_logs] returns normally
    and appends 55 rows to [network_logs]: first 50 rows for [chrome.exe]
    over [TCP], with byte counts in 100..5000, then 5 rows for
    [suspicious_app.exe] over [UDP], with byte counts in 50000..500000.
    Policies are left alone and the ids of the table stay pairwise
    distinct. *)
Theorem generate_test_logs_adds_55_rows (random : nat -> Z) (w : world) :
  NoDup (log_ids (db w) ++ map (os_entropy w) (seq (uuid_calls w) 55)) ->
  let w' := snd (generate_test_logs random w) in
  fst (generate_test_logs random w) = Ok tt
  /\ (exists normal anomalous,
        network_logs (db w') = network_logs (db w) ++ normal ++ anomalous
        /\ length normal = 50%nat
        /\ length anomalous = 5%nat
        /\ Forall (fun r =>
                     log_app_name r = "chrome.exe" /\ log_protocol r = "TCP"
                     /\ (100 <= log_bytes_sent r <= 5000)%Z
                     /\ (100 <= log_bytes_received r <= 5000)%Z) normal
        /\ Forall (fun r =>
                     log_app_name r = "suspicious_app.exe" /\ log_protocol r = "UDP"
                     /\ (50000 <= log_bytes_sent r <= 500000)%Z
                     /\ (50000 <= log_bytes_received r <= 500000)%Z) anomalous)
  /\ app_policies (db w') = app_policies (db w)
  /\ NoDup (log_ids (db w')).
Proof.
  intros Hfresh w'.
  set (randint := random_randint random).
  assert (Hrand : forall k a b, (a <= b)%Z -> (a <= randint k a b <= b)%Z)
    by (intros; now apply random_randint_bounds).
  pose proof (normal_counts_fit random) as F1.
  pose proof (anomalous_counts_fit random) as F2.
  fold randint in F1, F2.
  set (u := uuid_calls w) in *.
  assert (Hseq : seq u 55 = seq u 50 ++ seq (uuid_calls (tick 50 w)) 5).
  { change 55%nat with (50 + 5)%nat. rewrite seq_app. do 2 f_equal.
    unfold tick. simpl. fold u. lia. }
  rewrite Hseq in Hfresh. rewrite List.map_app in Hfresh.
  rewrite app_assoc in Hfresh.
  assert (Hfresh50 : NoDup (log_ids (db w) ++ map (os_entropy w) (seq u 50))).
  { now apply NoDup_app in Hfresh as (H & _ & _). }
  set (normal := test_rows 50 "chrome.exe" "TCP" "192.168.1." 1 255 100 5000
                   randint (os_entropy w) (os_clock w) u (now_calls w) 0).
  set (anomalous := test_rows 5 "suspicious_app.exe" "UDP" "unknown_host_" 1 100
                      50000 500000 randint (os_entropy w) (os_clock w)
                      (uuid_calls (tick 50 w)) (now_calls (tick 50 w))
                      (3 * 50 + 0)).
  assert (Hrun : generate_test_logs random w =
                 print "Test logs generated successfully!"
                   (set_db (tick 5 (tick 50 w))
                      (set_network_logs (db w)
                         (network_logs (db w) ++ normal ++ anomalous)))).
  { rewrite generate_test_logs_unfold. fold randint.
    rewrite (repeat_insert_ok "chrome.exe" "TCP" "192.168.1." 1 255 100 5000
               randint F1 50 (db w, 0%nat) w) by exact Hfresh50.
    cbn [fst snd]. fold u normal.
    rewrite (repeat_insert_ok "suspicious_app.exe" "UDP" "unknown_host_" 1 100
               50000 500000 randint F2 5).
    - cbn [fst snd]. unfold set_network_logs at 1 2 3. cbn [network_logs app_policies].
      fold anomalous. rewrite <- app_assoc. reflexivity.
    - cbn [fst snd]. unfold log_ids, set_network_logs. cbn [network_logs].
      rewrite map_app. unfold normal.
      rewrite (test_rows_ids "chrome.exe" "TCP" "192.168.1." 1 255 100 5000 randint).
      exact Hfresh. }
  subst w'. rewrite Hrun. cbn [fst snd print db set_db set_network_logs
                                 network_logs app_policies].
  split; [reflexivity | split; [| split; [reflexivity |]]].
  - exists normal, anomalous. split; [reflexivity |].
    split; [apply test_rows_length | split; [apply test_rows_length |]].
    split.
    + eapply Forall_impl;
        [apply (test_rows_shape "chrome.exe" "TCP" "192.168.1." 1 255 100 5000) |].
      intros r (Ha & Hp & [j Hs] & [j' Hr]). rewrite Hs, Hr.
      repeat split; try assumption; apply Hrand; lia.
    + eapply Forall_impl;
        [apply (test_rows_shape "suspicious_app.exe" "UDP" "unknown_host_" 1 100
                  50000 500000) |].
      intros r (Ha & Hp & [j Hs] & [j' Hr]). rewrite Hs, Hr.
      repeat split; try assumption; apply Hrand; lia.
  - unfold log_ids, set_network_logs. cbn [network_logs]. rewrite !List.map_app.
    unfold normal, anomalous.
    rewrite (test_rows_ids "chrome.exe" "TCP" "192.168.1." 1 255 100 5000 randint).
    rewrite (test_rows_ids "suspicious_app.exe" "UDP" "unknown_host_" 1 100
               50000 500000 randint).
    rewrite app_assoc. exact Hfresh.
Qed.

(** X11: [generate_test_logs] commits once, after both loops.  If it
    raises (an id it generated is already stored) the exception is
    [IntegrityError], nothing is printed and the database is exactly what it
    was: none of the rows inserted before the failure is kept.  If it
    returns, the table is the old one followed by 55 rows, so the next
    [detect_anomalies] is past its 10-record guard and runs the forest. *)
Theorem generate_test_logs_all_or_nothing (random : nat -> Z) (w : world) :
  let w' := snd (generate_test_logs random w) in
  (forall e,
      fst (generate_test_logs random w) = Raise e ->
      exn_cls e = IntegrityError /\ db w' = db w /\ stdout w' = stdout w)
  /\ (fst (generate_test_logs random w) = Ok tt ->
      (exists new,
          network_logs (db w') = network_logs (db w) ++ new
          /\ length new = 55%nat)
      /\ app_policies (db w') = app_policies (db w)
      /\ detect_anomalies w' =
           try_except (isolation_forest_pass (network_logs (db w')))
             is_Exception detect_handler w').
Proof.
  intros w'. subst w'. rewrite generate_test_logs_unfold.
  set (randint := random_randint random).
  pose proof (normal_counts_fit random) as F1.
  pose proof (anomalous_counts_fit random) as F2.
  fold randint in F1, F2.
  pose proof (repeat_insert_result "chrome.exe" "TCP" "192.168.1." 1 255 100 5000
                randint F1 50 (db w, 0%nat) w) as H1.
  pose proof (repeat_insert_db "chrome.exe" "TCP" "192.168.1." 1 255 100 5000
                randint F1 50 (db w, 0%nat) w) as D1.
  pose proof (repeat_insert_stdout "chrome.exe" "TCP" "192.168.1." 1 255 100 5000
                randint F1 50 (db w, 0%nat) w) as S1.
  destruct (repeat_m 50 _ _ w) as [[normal | e1] w1]; cbn [fst snd] in *.
  - pose proof (repeat_insert_result "suspicious_app.exe" "UDP" "unknown_host_"
                  1 100 50000 500000 randint F2 5 normal w1) as H2.
    pose proof (repeat_insert_db "suspicious_app.exe" "UDP" "unknown_host_"
                  1 100 50000 500000 randint F2 5 normal w1) as D2.
    pose proof (repeat_insert_stdout "suspicious_app.exe" "UDP" "unknown_host_"
                  1 100 50000 500000 randint F2 5 normal w1) as S2.
    destruct (repeat_m 5 _ _ w1) as [[anomalous | e2] w2]; cbn [fst snd] in *.
    + destruct H1 as (new1 & L1 & N1 & P1). destruct H2 as (new2 & L2 & N2 & P2).
      split; [discriminate |]. intros _.
      assert (Hlogs : network_logs (fst anomalous) =
                      network_logs (db w) ++ new1 ++ new2)
        by (rewrite L2, L1, <- app_assoc; reflexivity).
      split; [| split].
      * exists (new1 ++ new2). split; [exact Hlogs |].
        rewrite length_app, N1, N2. reflexivity.
      * simpl. now rewrite P2, P1.
      * apply detect_anomalies_enough. simpl.
        rewrite Hlogs, !length_app, N1, N2. lia.
    + split; [| discriminate]. intros e [= <-].
      split; [exact H2 | split; congruence].
  - split; [| discriminate]. intros e [= <-].
    split; [exact H1 | split; assumption].
Qed.

Lemma forest_outliers_labels (df : list log_row) :
  forest_outliers df =
    match forest_labels df with
    | Raise e => Raise e
    | Ok predictions => boolean_index df (map (Z.eqb (-1)) predictions)
    end.
Proof.
  unfold forest_outliers, forest_labels.
  destruct (forest_fit _ _ _); reflexivity.
Qed.

Lemma debug_anomaly_detection_unfold (w : world) :
  debug_anomaly_detection w =
    match forest_labels (network_logs (db w)) with
    | Raise e => (Raise e, w)
    | Ok predictions =>
        match set_column (network_logs (db w)) (map (Z.eqb (-1)) predictions) with
        | Raise e => (Raise e, w)
        | Ok is_anomaly =>
            (Ok (features_of (select_rows (network_logs (db w)) (map negb is_anomaly)),
                 features_of (select_rows (network_logs (db w)) is_anomaly)),
             snd (print (frame_str
                           (details_of (select_rows (network_logs (db w)) is_anomaly)))
                    (snd (print (newline +:+ "Anomalous Log Details:")
                       (snd (print ("Anomalous Logs: "
                                    +:+ str_int (Z.of_nat
                                          (length (List.filter (fun b => b) is_anomaly))))
                          (snd (print ("Total Logs: "
                                       +:+ str_int (Z.of_nat
                                             (length (network_logs (db w)))))
                             (snd (print (newline
                                          +:+ "--- Anomaly Detection Report ---")
                                     w))))))))))
        end
    end.
Proof.
  unfold debug_anomaly_detection, fit_predict, fit, check_random_state,
    forest_labels, bind, gets, lift, ret, sql_select_all_logs. simpl.
  destruct (forest_fit _ _ _) as [fitted | e]; [| reflexivity].
  destruct (forest_predict _ _) as [predictions | e]; [| reflexivity].
  destruct (set_column _ _); reflexivity.
Qed.

(** X12: when the forest labels the stored batch, the debug script reports
    the very records the agent's detector returns on a batch of at least 10:
    the anomalous points it plots are their byte counts, the count it
    prints is their number, the frame it prints holds their four columns.
    The script has no 10-record guard: on a smaller batch it reports the
    same way while the agent returns the empty list.  It never writes to
    the database. *)
Theorem debug_anomaly_detection_agrees_with_agent (w : world) (rows : list log_row) :
  forest_outliers (network_logs (db w)) = Ok rows ->
  (exists normal, fst (debug_anomaly_detection w) = Ok (normal, features_of rows))
  /\ stdout (snd (debug_anomaly_detection w)) =
       stdout w ++
         [newline +:+ "--- Anomaly Detection Report ---";
          "Total Logs: " +:+ str_int (Z.of_nat (length (network_logs (db w))));
          "Anomalous Logs: " +:+ str_int (Z.of_nat (length rows));
          newline +:+ "Anomalous Log Details:";
          frame_str (details_of rows)]
  /\ ((10 <= length (network_logs (db w)))%nat -> fst (detect_anomalies w) = Ok rows)
  /\ ((length (network_logs (db w)) < 10)%nat -> fst (detect_anomalies w) = Ok [])
  /\ db (snd (debug_anomaly_detection w)) = db w.
Proof.
  intros H. pose proof H as Hout.
  rewrite forest_outliers_labels in H.
  rewrite debug_anomaly_detection_unfold.
  destruct (forest_labels _) as [predictions | e]; [| discriminate].
  unfold boolean_index in H. unfold set_column.
  destruct (Nat.eqb _ _) eqn:E; [| discriminate].
  injection H as <-. apply Nat.eqb_eq in E.
  split; [eexists; reflexivity | split; [| split; [| split]]].
  - simpl. rewrite (select_rows_length _ _ E), <- !app_assoc. reflexivity.
  - intros Hge. rewrite detect_anomalies_result.
    destruct (Nat.ltb_spec (length (network_logs (db w))) 10); [lia |].
    now rewrite Hout.
  - intros Hlt. now rewrite detect_anomalies_few.
  - reflexivity.
Qed.

(** X13: the debug script has no exception handler either: a failure of
    fitting or predicting leaves it as raised, before anything is printed,
    where the agent's detector, on a batch of at least 10, logs the failure
    and returns the empty list. *)
Theorem debug_anomaly_detection_propagates (w : world) (e : exception) :
  forest_labels (network_logs (db w)) = Raise e ->
  debug_anomaly_detection w = (Raise e, w)
  /\ ((10 <= length (network_logs (db w)))%nat ->
      is_Exception e = true ->
      detect_anomalies w =
        (Ok [], snd (logging_error ("Anomaly detection error: " +:+ exn_msg e) w))).
Proof.
  intros H. split.
  - rewrite debug_anomaly_detection_unfold. now rewrite H.
  - intros Hge Hexc. rewrite detect_anomalies_enough by exact Hge.
    unfold try_except, sql_select_all_logs.
    rewrite isolation_forest_pass_eq, forest_outliers_labels, H, Hexc.
    reflexivity.
Qed.

End Firewall.

Arguments World {datetime rng_state}.
Arguments db {datetime rng_state}.
Arguments os_entropy {datetime rng_state}.
Arguments uuid_calls {datetime rng_state}.
Arguments os_clock {datetime rng_state}.
Arguments now_calls {datetime rng_state}.
Arguments numpy_rng {datetime rng_state}.
Arguments app_firewall_log {datetime rng_state}.
Arguments stdout {datetime rng_state}.
Arguments LogEntry {datetime}.
Arguments entry_id {datetime}.
Arguments entry_app_name {datetime}.
Arguments entry_timestamp {datetime}.
Arguments entry_destination {datetime}.
Arguments entry_protocol {datetime}.
Arguments entry_bytes_sent {datetime}.
Arguments entry_bytes_received {datetime}.
Arguments init_db {datetime rng_state}.
Arguments _log_network_activity {datetime} datetime_str is_numeric_literal
  {rng_state}.
Arguments get_running_processes {datetime rng_state}.
Arguments monitor_network_traffic {datetime} datetime_str is_numeric_literal
  {rng_state}.
Arguments fit {datetime rng_state} RandomState {forest} forest_fit.
Arguments isolation_forest_pass {datetime rng_state} RandomState {forest}
  forest_fit forest_predict.
Arguments detect_anomalies {datetime rng_state} RandomState {forest}
  forest_fit forest_predict.
Arguments detect_handler {datetime rng_state}.
Arguments logging_error {datetime rng_state}.
Arguments try_except {datetime rng_state A}.
Arguments dashboard {datetime rng_state} RandomState {forest}
  forest_fit forest_predict render_template.
Arguments create_policy {datetime rng_state}.
Arguments get_app_logs {datetime rng_state}.
Arguments cleanup_network_logs {datetime rng_state}.
Arguments run_operations {datetime} datetime_str is_numeric_literal {rng_state}
  RandomState {forest} forest_fit forest_predict render_template.
Arguments no_cleanup {datetime}.
Arguments InitDb {datetime}.
Arguments NewAgent {datetime}.
Arguments GetRunningProcesses {datetime}.
Arguments MonitorNetworkTraffic {datetime}.
Arguments LogNetworkActivity {datetime}.
Arguments DetectAnomalies {datetime}.
Arguments Dashboard {datetime}.
Arguments CreatePolicy {datetime}.
Arguments GetAppLogs {datetime}.
Arguments CleanupNetworkLogs {datetime}.
Arguments row_for {datetime} datetime_str is_numeric_literal.
Arguments rows_from {datetime} datetime_str is_numeric_literal.
Arguments generate_test_logs {datetime} datetime_str is_numeric_literal
  {rng_state}.
Arguments stored_count {datetime rng_state}.

(** ** The decision engine *)

Module DecisionEngine.

Inductive Protocol := TCP | UDP | UNKNOWN.

Record ConnectionRecord := {
  id : string;
  appName : string;
  timestamp : Z;
  destination : string;
  protocol : Protocol;
  bytesSent : N;
  bytesReceived : N
}.

Record Policy := {
  policyId : string;
  policyAppName : string;
  allowedDomains : list string;
  allowedIPs : list string;
  allowedProtocols : list Protocol;
  isActive : bool
}.

Inductive Outcome := ALLOW | BLOCK.

Record Verdict := {
  connectionId : string;
  outcome : Outcome;
  reason : string
}.

Definition Protocol_eqb (a b : Protocol) : bool :=
  match a, b with
  | TCP, TCP | UDP, UDP | UNKNOWN, UNKNOWN => true
  | _, _ => false
  end.

Definition lower_ascii (c : ascii) : ascii :=
  let n := nat_of_ascii c in
  if (65 <=? n)%nat && (n <=? 90)%nat then ascii_of_nat (n + 32) else c.

Fixpoint lower (s : string) : string :=
  match s with
  | EmptyString => EmptyString
  | String c rest => String (lower_ascii c) (lower rest)
  end.

Fixpoint has_colon (s : string) : bool :=
  match s with
  | EmptyString => false
  | String c rest => Ascii.eqb c ":" || has_colon rest
  end.

(** The host of a [host:port] destination: the text before the last
    colon. *)
Fixpoint host_of (s : string) : string :=
  match s with
  | EmptyString => EmptyString
  | String c rest =>
      if Ascii.eqb c ":" && negb (has_colon rest) then EmptyString
      else String c (host_of rest)
  end.

(** Modelled from the spec: the Decision Engine.  None of the source files
    holds a [decide] function, a verdict type or any rule evaluation; the
    definition follows section 4.4 of the specification: no policy gives
    ALLOW with reason "no policy configured"; an inactive policy gives ALLOW
    with reason "policy inactive"; otherwise the verdict is BLOCK unless the
    destination host matches [allowedDomains] (case-insensitively) or
    [allowedIPs] (exactly) and the protocol is in [allowedProtocols]. *)
Definition decide (record : ConnectionRecord) (policy : option Policy) : Verdict :=
  match policy with
  | None =>
      {| connectionId := id record; outcome := ALLOW;
         reason := "no policy configured" |}
  | Some p =>
      if negb (isActive p) then
        {| connectionId := id record; outcome := ALLOW;
           reason := "policy inactive" |}
      else
        let host := host_of (destination record) in
        let domain_ok :=
          existsb (fun d => String.eqb (lower d) (lower host)) (allowedDomains p) in
        let ip_ok := existsb (fun a => String.eqb a host) (allowedIPs p) in
        let protocol_ok :=
          existsb (Protocol_eqb (protocol record)) (allowedProtocols p) in
        if negb (domain_ok || ip_ok) then
          {| connectionId := id record; outcome := BLOCK;
             reason := "domain/IP mismatch" |}
        else if negb protocol_ok then
          {| connectionId := id record; outcome := BLOCK;
             reason := "protocol mismatch" |}
        else
          {| connectionId := id record; outcome := ALLOW;
             reason := "allowed by policy" |}
  end.

Definition chrome_policy : Policy :=
  {| policyId := "p1"; policyAppName := "chrome.exe"; allowedDomains := [];
     allowedIPs := ["192.168.1.10"]; allowedProtocols := [TCP];
     isActive := true |}.

Definition chrome_record (dest : string) : ConnectionRecord :=
  {| id := "r1"; appName := "chrome.exe"; timestamp := 0; destination := dest;
     protocol := TCP; bytesSent := 0; bytesReceived := 0 |}.

Example scenario_B_allow :
  outcome (decide (chrome_record "192.168.1.10:443") (Some chrome_policy)) = ALLOW.
Proof. reflexivity. Qed.

Example scenario_B_block :
  decide (chrome_record "10.0.0.5:443") (Some chrome_policy) =
    {| connectionId := "r1"; outcome := BLOCK; reason := "domain/IP mismatch" |}.
Proof. reflexivity. Qed.

(** C1: whatever the connection record, the Decision Engine evaluated with
    no policy returns an ALLOW verdict for that record, with reason
    "no policy configured". *)
Theorem decide_no_policy (r : ConnectionRecord) :
  decide r None =
    {| connectionId := id r; outcome := ALLOW; reason := "no policy configured" |}
  /\ outcome (decide r None) = ALLOW.
Proof. split; reflexivity. Qed.

End DecisionEngine.

(** ** The owner of a socket *)


(** ** A concrete world to run the model in *)

Module Sample.

(** Datetimes as the microseconds of one second, printed the way [str]
    prints a datetime; random states as their seed. *)
Definition toy_datetime_str (t : Z) : string := "2023-11-14 22:13:20." +:+ str_int t.
Definition toy_RandomState (seed : Z) : Z := seed.

(** A stand-in for SQLite's test: the texts made of decimal digits. *)
Definition is_digit (c : ascii) : bool :=
  (48 <=? nat_of_ascii c)%nat && (nat_of_ascii c <=? 57)%nat.

Fixpoint all_digits (s : string) : bool :=
  match s with
  | EmptyString => true
  | String c rest => is_digit c && all_digits rest
  end.

Definition toy_is_numeric_literal (s : string) : bool :=
  match s with
  | EmptyString => false
  | _ => all_digits s
  end.

(** A stand-in for the rendering: a page for [dashboard.html] that shows
    the two counts, [TemplateNotFound] for any other name. *)
Definition toy_render_template (name : string)
    (processes : list (gmap string pyval)) (anomalies : list log_row)
    : result string :=
  if String.eqb name "dashboard.html"
  then Ok ("processes: " +:+ str_int (Z.of_nat (length processes))
           +:+ ", anomalies: " +:+ str_int (Z.of_nat (length anomalies)))
  else Raise (Exn TemplateNotFound name).

(** The rendering when there is no template file at all. *)
Definition no_template (name : string)
    (processes : list (gmap string pyval)) (anomalies : list log_row)
    : result string :=
  Raise (Exn TemplateNotFound name).

(** A stand-in for the forest: fitting refuses negative byte counts and
    otherwise learns a volume threshold that depends on the random state;
    a row above the threshold is an outlier. *)
Definition toy_forest_fit (contamination : Q) (rng : Z) (X : list (Z * Z)) : result Z :=
  if existsb (fun x => (fst x <? 0)%Z || (snd x <? 0)%Z) X
  then Raise (Exn ValueError "negative byte count")
  else Ok (10000 + rng).

Definition toy_forest_predict (threshold : Z) (X : list (Z * Z)) : result (list Z) :=
  Ok (map (fun x => if (threshold <? fst x + snd x)%Z then -1 else 1) X).

Definition toy_entropy (k : nat) : string := "uuid-" +:+ str_int (Z.of_nat k).
Definition toy_clock (k : nat) : Z := 500000 + Z.of_nat k.

Definition world_of (d : database) (rng : Z) : world Z Z :=
  {| db := d; os_entropy := toy_entropy; uuid_calls := 0;
     os_clock := toy_clock; now_calls := 0; numpy_rng := rng;
     app_firewall_log := []; stdout := [] |}.

Definition sample_row (k : nat) (bytes_sent bytes_received : Z) : log_row :=
  {| log_id := "row-" +:+ str_int (Z.of_nat k);
     log_app_name := "chrome.exe";
     log_timestamp := KeptText "2023-11-14 22:13:19.000000";
     log_destination := "192.168.1.10:443";
     log_protocol := "SOCK_STREAM";
     log_bytes_sent := bytes_sent;
     log_bytes_received := bytes_received |}.

Definition quiet_rows (n : nat) : list log_row :=
  map (fun k => sample_row k (100 + Z.of_nat k) 200) (seq 0 n).

Definition loud_row : log_row := sample_row 9 250000 400000.
Definition broken_row : log_row := sample_row 9 (-1) 0.

Definition logs9 : database := {| app_policies := []; network_logs := quiet_rows 9 |}.
Definition logs10 : database :=
  {| app_policies := []; network_logs := quiet_rows 9 ++ [loud_row] |}.
Definition logs10_broken : database :=
  {| app_policies := []; network_logs := quiet_rows 9 ++ [broken_row] |}.
Definition logs10_with_policy : database :=
  set_app_policies logs10
    [PolicyRow "p-1" "chrome.exe" "example.com" "192.168.1.10" "TCP" true].
Definition empty_db : database := {| app_policies := []; network_logs := [] |}.

Definition duplicate_entry : log_entry Z :=
  {| entry_id := "row-3"; entry_app_name := "chrome.exe";
     entry_timestamp := 499999; entry_destination := "10.0.0.5:443";
     entry_protocol := "SOCK_STREAM"; entry_bytes_sent := 10;
     entry_bytes_received := 20 |}.

Definition socket (remote_ip : string) (owner : Z) (counters : attr (option Z)) : sconn :=
  {| laddr := Some (Addr "192.168.1.2" 50000);
     raddr := Some (Addr remote_ip 443);
     type_name := Some "SOCK_STREAM";
     pid := Some owner;
     sent := counters;
     recv := counters |}.

Definition listening_socket : sconn :=
  {| laddr := Some (Addr "0.0.0.0" 8080); raddr := None;
     type_name := Some "SOCK_STREAM"; pid := Some 77;
     sent := HasAttr None; recv := HasAttr None |}.

(** Objects that carry the two counters the agent reads, and one that does
    not. *)
Definition good1 : sconn := socket "10.0.0.1" 4242 (HasAttr (Some 1500)).
Definition bad2 : sconn := socket "10.0.0.2" 4242 NoAttr.
Definition good3 : sconn := socket "10.0.0.3" 4242 (HasAttr None).

(** A connection as psutil builds it: the tuple has the fields [fd],
    [family], [type], [laddr], [raddr], [status] and [pid], and neither
    [sent] nor [recv]. *)
Definition psutil_socket (remote_ip : string) (owner : Z) : sconn :=
  socket remote_ip owner NoAttr.

(** A counter one past the largest integer SQLite holds. *)
Definition huge4 : sconn := socket "10.0.0.4" 4242 (HasAttr (Some (2 ^ 63))).

Definition chrome_request : policy_request :=
  {| req_app_name := Some "chrome.exe";
     req_allowed_domains := Some ["example.com"; "example.org"];
     req_allowed_ips := Some ["192.168.1.10"];
     req_allowed_protocols := Some ["TCP"];
     req_is_active := None |}.

Definition info_of (l : list (string * pyval)) : result (gmap string pyval) :=
  Ok (list_to_map l).

Definition firefox : proc :=
  Proc (info_of [("pid", PyInt 4242); ("name", PyStr "firefox.exe");
                 ("exe", PyStr "/usr/bin/firefox")]).
Definition vanished : proc := Proc (Raise (Exn NoSuchProcess "process no longer exists")).
Definition no_exe_key : proc :=
  Proc (info_of [("pid", PyInt 1); ("name", PyStr "init")]).
Definition exe_denied : proc :=
  Proc (info_of [("pid", PyInt 2); ("name", PyStr "kthreadd"); ("exe", PyNone)]).

End Sample.

(** ** The theorems at concrete inputs *)

Module Witnesses.
Import Sample.

Lemma log_network_activity_duplicate_id_witness :
  In (entry_id duplicate_entry) (log_ids (db (world_of logs9 0)))
  /\ fits_int64 (entry_bytes_sent duplicate_entry) = true
  /\ fits_int64 (entry_bytes_received duplicate_entry) = true
  /\ exists ex,
       _log_network_activity toy_datetime_str toy_is_numeric_literal
         duplicate_entry (world_of logs9 0)
         = (Raise ex, world_of logs9 0)
       /\ exn_cls ex = IntegrityError
       /\ is_sqlite3_Error ex = true.
Proof.
  assert (H : In (entry_id duplicate_entry) (log_ids (db (world_of logs9 0))))
    by (vm_compute; auto 10).
  split; [exact H | split; [reflexivity | split; [reflexivity |]]].
  exact (log_network_activity_duplicate_id Z toy_datetime_str
           toy_is_numeric_literal Z duplicate_entry (world_of logs9 0)
           H eq_refl eq_refl).
Defined.

Definition busy_day : list (operation Z) :=
  [NewAgent;
   MonitorNetworkTraffic (Ok [good1; listening_socket; bad2; good3]) "chrome.exe";
   MonitorNetworkTraffic (Ok [psutil_socket "10.0.0.7" 4242; huge4]) "chrome.exe";
   LogNetworkActivity duplicate_entry;
   CreatePolicy chrome_request;
   DetectAnomalies;
   Dashboard [firefox; vanished];
   GetAppLogs "chrome.exe";
   MonitorNetworkTraffic (Raise (Exn AccessDenied "psutil.AccessDenied")) "chrome.exe"].

Lemma log_store_append_only_witness :
  no_cleanup busy_day = true
  /\ (sql_count_logs (db (world_of logs9 0)) <=
      sql_count_logs
        (db (run_operations toy_datetime_str toy_is_numeric_literal toy_RandomState
               toy_forest_fit toy_forest_predict toy_render_template busy_day
               (world_of logs9 0))))%Z
  /\ sql_count_logs (db (snd (cleanup_network_logs (world_of logs9 0)))) = 0.
Proof.
  split; [reflexivity | split].
  - apply (proj1 (log_store_append_only Z toy_datetime_str toy_is_numeric_literal
                    Z toy_RandomState Z toy_forest_fit toy_forest_predict
                    toy_render_template) busy_day (world_of logs9 0)).
    reflexivity.
  - apply (proj2 (log_store_append_only Z toy_datetime_str toy_is_numeric_literal
                    Z toy_RandomState Z toy_forest_fit toy_forest_predict
                    toy_render_template) (world_of logs9 0)).
Defined.

Lemma detect_anomalies_threshold_witness :
  length (network_logs (db (world_of logs9 7))) = 9%nat
  /\ detect_anomalies toy_RandomState toy_forest_fit toy_forest_predict
       (world_of logs9 7) = (Ok [], world_of logs9 7)
  /\ length (network_logs (db (world_of logs10 7))) = 10%nat
  /\ detect_anomalies toy_RandomState toy_forest_fit toy_forest_predict
       (world_of logs10 7) = (Ok [loud_row], world_of logs10 7).
Proof.
  split; [reflexivity | split; [| split; [reflexivity |]]].
  - apply (proj1 (proj2 (detect_anomalies_threshold Z Z toy_RandomState Z
                           toy_forest_fit toy_forest_predict (world_of logs9 7)))).
    reflexivity.
  - apply (proj2 (proj2 (proj2 (detect_anomalies_threshold Z Z toy_RandomState Z
                                  toy_forest_fit toy_forest_predict
                                  (world_of logs10 7))) eq_refl)
             10042
             [1; 1; 1; 1; 1; 1; 1; 1; 1; -1]);
      reflexivity.
Defined.

Lemma detect_anomalies_deterministic_witness :
  network_logs (db (world_of logs10 7)) =
    network_logs (db (world_of logs10_with_policy 99))
  /\ fst (detect_anomalies toy_RandomState toy_forest_fit toy_forest_predict
            (world_of logs10 7)) =
     fst (detect_anomalies toy_RandomState toy_forest_fit toy_forest_predict
            (world_of logs10_with_policy 99)).
Proof.
  split; [reflexivity |].
  apply (detect_anomalies_deterministic Z Z toy_RandomState Z toy_forest_fit
           toy_forest_predict (world_of logs10 7)
           (world_of logs10_with_policy 99)).
  reflexivity.
Defined.

Lemma detect_anomalies_catches_failures_witness :
  (10 <= length (network_logs (db (world_of logs10_broken 7))))%nat
  /\ is_Exception (Exn ValueError "negative byte count") = true
  /\ detect_anomalies toy_RandomState toy_forest_fit toy_forest_predict
       (world_of logs10_broken 7) =
     (Ok [],
      snd (logging_error "Anomaly detection error: negative byte count"
             (world_of logs10_broken 7))).
Proof.
  assert (Hlen : (10 <= length (network_logs (db (world_of logs10_broken 7))))%nat)
    by (simpl; lia).
  split; [exact Hlen | split; [reflexivity |]].
  apply (proj1 (detect_anomalies_catches_failures Z Z toy_RandomState Z
                  toy_forest_fit toy_forest_predict (world_of logs10_broken 7))
           (Exn ValueError "negative byte count") Hlen);
    reflexivity.
Defined.

Lemma get_running_processes_total_witness :
  Forall lookup_handled [firefox; vanished; no_exe_key; exe_denied]
  /\ get_running_processes [firefox; vanished; no_exe_key; exe_denied]
       (world_of empty_db 0) =
     (Ok [list_to_map [("pid", PyInt 4242); ("name", PyStr "firefox.exe");
                       ("path", PyStr "/usr/bin/firefox")];
          list_to_map [("pid", PyInt 1); ("name", PyStr "init");
                       ("path", PyStr "Unknown")];
          list_to_map [("pid", PyInt 2); ("name", PyStr "kthreadd");
                       ("path", PyNone)]],
      world_of empty_db 0).
Proof.
  assert (H : Forall lookup_handled [firefox; vanished; no_exe_key; exe_denied]).
  { repeat (apply List.Forall_cons; [vm_compute; eauto |]). apply List.Forall_nil. }
  split; [exact H |].
  rewrite (proj1 (get_running_processes_total Z Z
                    [firefox; vanished; no_exe_key; exe_denied]
                    (world_of empty_db 0) H)).
  reflexivity.
Defined.

Lemma monitor_network_traffic_stops_at_first_failure_witness :
  let w0 := world_of logs9 0 in
  let denied : result (list sconn) := Raise (Exn AccessDenied "psutil.AccessDenied") in
  let sockets :=
    [psutil_socket "10.0.0.1" 4242; listening_socket; psutil_socket "10.0.0.2" 4242] in
  let pass nc :=
    monitor_network_traffic toy_datetime_str toy_is_numeric_literal nc
      "chrome.exe" w0 in
  (forall e, denied = Raise e -> is_Exception e = true)
  /\ fst (pass denied) = Ok tt
  /\ app_firewall_log (snd (pass denied)) =
       ["Network monitoring error: psutil.AccessDenied"]
  /\ fst (pass (Ok sockets)) = Ok tt
  /\ network_logs (db (snd (pass (Ok sockets)))) = quiet_rows 9
  /\ uuid_calls (snd (pass (Ok sockets))) = 1%nat
  /\ network_logs (db (snd (pass (Ok [good1; listening_socket; huge4; good3])))) =
       quiet_rows 9 ++
         [row_for toy_datetime_str toy_is_numeric_literal "chrome.exe" good1
            "uuid-0" 500000].
Proof.
  intros w0 denied sockets pass.
  assert (Hd : forall e, denied = Raise e -> is_Exception e = true)
    by (intros e [= <-]; reflexivity).
  assert (Hs : forall (conns : list sconn) e,
             Ok conns = Raise e -> is_Exception e = true)
    by (intros conns e H; discriminate H).
  assert (Hlt : (stored_count (List.filter established sockets) w0 <
                 length (List.filter established sockets))%nat)
    by (vm_compute; lia).
  split; [exact Hd | split; [| split; [| split; [| split; [| split]]]]].
  - exact (proj1 (monitor_network_traffic_stops_at_first_failure Z toy_datetime_str
                    toy_is_numeric_literal Z denied "chrome.exe" w0 Hd)).
  - exact (proj2 (proj1 (proj2 (monitor_network_traffic_stops_at_first_failure Z
                                  toy_datetime_str toy_is_numeric_literal Z denied
                                  "chrome.exe" w0 Hd))
                    _ eq_refl)).
  - exact (proj1 (monitor_network_traffic_stops_at_first_failure Z toy_datetime_str
                    toy_is_numeric_literal Z (Ok sockets) "chrome.exe" w0
                    (Hs sockets))).
  - exact (proj1 (proj2 (proj2 (monitor_network_traffic_stops_at_first_failure Z
                                  toy_datetime_str toy_is_numeric_literal Z
                                  (Ok sockets) "chrome.exe" w0 (Hs sockets)))
                    sockets eq_refl)).
  - exact (proj2 (proj2 (proj2 (proj2 (proj2
             (monitor_network_traffic_stops_at_first_failure Z toy_datetime_str
                toy_is_numeric_literal Z (Ok sockets) "chrome.exe" w0 (Hs sockets)))
             sockets eq_refl)) Hlt)).
  - exact (proj1 (proj2 (proj2 (monitor_network_traffic_stops_at_first_failure Z
                                  toy_datetime_str toy_is_numeric_literal Z
                                  (Ok [good1; listening_socket; huge4; good3])
                                  "chrome.exe" w0
                                  (Hs [good1; listening_socket; huge4; good3])))
                    [good1; listening_socket; huge4; good3] eq_refl)).
Defined.


Lemma create_policy_adds_a_row_witness :
  req_app_name chrome_request = Some "chrome.exe"
  /\ app_policies (db (snd (create_policy chrome_request (world_of logs10_with_policy 0)))) =
     [PolicyRow "p-1" "chrome.exe" "example.com" "192.168.1.10" "TCP" true;
      PolicyRow "uuid-0" "chrome.exe" "example.com,example.org" "192.168.1.10"
        "TCP" true].
Proof.
  split; [reflexivity |].
  exact (proj1 (proj2 (create_policy_adds_a_row Z Z chrome_request "chrome.exe"
                         (world_of logs10_with_policy 0) eq_refl))).
Defined.

End Witnesses.

(** ** Where the code departs from the specification *)

Module Counterexamples.
Import Sample.

(** Two [create_policy] calls with the same body leave two active rows for
    [chrome.exe], the first one untouched. *)
Lemma create_policy_twice_leaves_two_active_rows :
  let w1 := snd (create_policy chrome_request (world_of empty_db 0)) in
  let w2 := snd (create_policy chrome_request w1) in
  active_policies "chrome.exe" (db w1) =
    [PolicyRow "uuid-0" "chrome.exe" "example.com,example.org" "192.168.1.10"
       "TCP" true]
  /\ active_policies "chrome.exe" (db w2) =
       [PolicyRow "uuid-0" "chrome.exe" "example.com,example.org" "192.168.1.10"
          "TCP" true;
        PolicyRow "uuid-1" "chrome.exe" "example.com,example.org" "192.168.1.10"
          "TCP" true]
  /\ length (active_policies "chrome.exe" (db w2)) <> 1%nat.
Proof. repeat split. discriminate. Qed.

(** Two connections as psutil builds them: the failure on the first ends
    the pass, and the second is never looked at (one id drawn, one clock
    reading, one error line for two sockets).  And on objects that carry
    the counters: the pass returns normally, stores the first socket and
    drops the third, whether the second lacks the counters or has one too
    large to bind; the same pass stores the third when the failing socket
    is not in the batch. *)
Lemma monitor_network_traffic_drops_later_sockets :
  let w0 := world_of empty_db 0 in
  let pass conns :=
    monitor_network_traffic toy_datetime_str toy_is_numeric_literal (Ok conns)
      "chrome.exe" w0 in
  let two := [psutil_socket "10.0.0.1" 4242; psutil_socket "10.0.0.2" 4242] in
  fst (pass two) = Ok tt
  /\ uuid_calls (snd (pass two)) = 1%nat
  /\ now_calls (snd (pass two)) = 1%nat
  /\ app_firewall_log (snd (pass two)) =
       ["Network monitoring error: 'sconn' object has no attribute 'sent'"]
  /\ network_logs (db (snd (pass two))) = []
  /\ established good3 = true
  /\ map log_destination (network_logs (db (snd (pass [good1; good3])))) =
       ["10.0.0.1:443"; "10.0.0.3:443"]
  /\ fst (pass [good1; bad2; good3]) = Ok tt
  /\ map log_destination (network_logs (db (snd (pass [good1; bad2; good3])))) =
       ["10.0.0.1:443"]
  /\ ~ In (destination_of good3)
         (map log_destination (network_logs (db (snd (pass [good1; bad2; good3])))))
  /\ fst (pass [good1; huge4; good3]) = Ok tt
  /\ map log_destination (network_logs (db (snd (pass [good1; huge4; good3])))) =
       ["10.0.0.1:443"]
  /\ app_firewall_log (snd (pass [good1; huge4; good3])) =
       ["Network monitoring error: Python int too large to convert to SQLite INTEGER"].
Proof.
  repeat split. simpl. intros [H | []]. discriminate H.
Qed.


(** C10: a process whose executable path could not be read.  Its [info]
    holds the key ['exe'] with the value [None], which is what
    [psutil.process_iter(['pid', 'name', 'exe'])] supplies when access is
    denied.  The process is listed, not skipped, and the path of its
    descriptor is [None] where ['Unknown'] was meant: the default of
    [dict.get] only stands in for a missing key. *)
Theorem get_running_processes_lists_denied_process :
  info exe_denied =
    Ok (list_to_map [("pid", PyInt 2); ("name", PyStr "kthreadd"); ("exe", PyNone)])
  /\ get_running_processes [firefox; exe_denied] (world_of empty_db 0) =
       (Ok [list_to_map [("pid", PyInt 4242); ("name", PyStr "firefox.exe");
                         ("path", PyStr "/usr/bin/firefox")];
            list_to_map [("pid", PyInt 2); ("name", PyStr "kthreadd");
                         ("path", PyNone)]],
        world_of empty_db 0)
  /\ descriptor_of exe_denied =
       Some (list_to_map [("pid", PyInt 2); ("name", PyStr "kthreadd");
                          ("path", PyNone)])
  /\ (list_to_map [("pid", PyInt 2); ("name", PyStr "kthreadd"); ("path", PyNone)]
        : gmap string pyval) !! "path" <> Some (PyStr "Unknown").
Proof.
  split; [reflexivity | split; [reflexivity | split; [reflexivity |]]].
  discriminate.
Qed.

(** A timestamp whose text is a numeric literal is not kept as text: with
    [str] printing a bare number, the column holds the number. *)
Example numeric_timestamp_is_stored_as_a_number :
  map log_timestamp
    (network_logs
       (db (snd (_log_network_activity str_int toy_is_numeric_literal
                   duplicate_entry (world_of empty_db 0))))) =
    [NumberOf "499999"].
Proof. reflexivity. Qed.

(** In a checkout without [templates/dashboard.html] the view raises. *)
Example dashboard_without_template :
  fst (dashboard toy_RandomState toy_forest_fit toy_forest_predict no_template
         [firefox] (world_of logs10 7)) =
    Raise (Exn TemplateNotFound "dashboard.html").
Proof. reflexivity. Qed.

(** A forest built without [random_state] draws from the global state, and
    its fit changes with it; [detect_anomalies] never builds one. *)
Example unseeded_fit_follows_the_global_state :
  fst (fit toy_RandomState toy_forest_fit
         {| contamination := Qmake 1 10; random_state := None |} []
         (world_of empty_db 1)) <>
  fst (fit toy_RandomState toy_forest_fit
         {| contamination := Qmake 1 10; random_state := None |} []
         (world_of empty_db 2)).
Proof. discriminate. Qed.

End Counterexamples.

(** * The database file itself *)

(** [cleanup_anomalies_script] also runs against a file that is not there
    yet, or that [init_db] has not touched, and it can delete the file.
    This part keeps track of whether the file and each of its two tables
    exist. *)

Module Disk.

(** [firewall_policies.db] as SQLite opens it: each table is there with
    its rows, or is not there. *)
Record sqlite_file := SqliteFile {
  tbl_app_policies : option (list policy_row);
  tbl_network_logs : option (list log_row)
}.

(** The directory entry and what was printed. *)
Record state := State {
  db_file : option sqlite_file;
  printed : list string
}.

Definition M (A : Type) : Type := state -> result A * state.

Definition print (msg : string) : M unit :=
  fun s => (Ok tt, {| db_file := db_file s; printed := printed s ++ [msg] |}).

Definition new_file : sqlite_file := SqliteFile None None.

(** [sqlite3.connect('firewall_policies.db')]: a file that is not there is
    created, with no table in it. *)
Definition connect : M sqlite_file :=
  fun s =>
    match db_file s with
    | Some f => (Ok f, s)
    | None => (Ok new_file, {| db_file := Some new_file; printed := printed s |})
    end.

(** [conn.commit()] of the statements run on [f] *)
Definition commit (f : sqlite_file) : M unit :=
  fun s => (Ok tt, {| db_file := Some f; printed := printed s |}).

(** [CREATE TABLE IF NOT EXISTS] *)
Definition create_table_if_not_exists {A} (t : option (list A)) : option (list A) :=
  match t with
  | Some rows => Some rows
  | None => Some []
  end.

Definition init_db : M unit :=
  fun s =>
    match connect s with
    | (Ok f, s1) =>
        commit {| tbl_app_policies := create_table_if_not_exists (tbl_app_policies f);
                  tbl_network_logs := create_table_if_not_exists (tbl_network_logs f) |}
          s1
    | (Raise e, s1) => (Raise e, s1)
    end.

(** [DELETE FROM network_logs] *)
Definition sql_delete_logs (f : sqlite_file) : result sqlite_file :=
  match tbl_network_logs f with
  | Some _ =>
      Ok {| tbl_app_policies := tbl_app_policies f; tbl_network_logs := Some [] |}
  | None => Raise (Exn OperationalError "no such table: network_logs")
  end.

Definition cleanup_network_logs : M unit :=
  fun s =>
    let body : result unit * state :=
      match connect s with
      | (Ok f, s1) =>
          match sql_delete_logs f with
          | Ok f' =>
              match commit f' s1 with
              | (Ok _, s2) => print "Network logs have been successfully cleared." s2
              | (Raise e, s2) => (Raise e, s2)
              end
          | Raise e => (Raise e, s1)
          end
      | (Raise e, s1) => (Raise e, s1)
      end in
    match body with
    | (Ok _, s') => (Ok tt, s')
    | (Raise e, s') =>
        if is_sqlite3_Error e
        then print ("An error occurred while cleaning up logs: " +:+ exn_msg e) s'
        else (Raise e, s')
    end.

(** [os_remove] is what [os.remove(db_path)] returns or raises when it is
    called. *)
Definition remove_database_file (os_remove : result unit) : M unit :=
  fun s =>
    let body : result unit * state :=
      match db_file s with
      | Some _ =>
          match os_remove with
          | Ok _ =>
              print "Database file firewall_policies.db has been deleted."
                {| db_file := None; printed := printed s |}
          | Raise e => (Raise e, s)
          end
      | None => print "No database file found." s
      end in
    match body with
    | (Ok _, s') => (Ok tt, s')
    | (Raise e, s') =>
        if is_Exception e
        then print ("Error removing database file: " +:+ exn_msg e) s'
        else (Raise e, s')
    end.

Section Main.

(** [str.strip] and [str.lower] *)
Variable str_strip : string -> string.
Variable str_lower : string -> string.

(** [choice_line] and [confirm_line] are what the two [input] calls return;
    the second is read only when the first chooses the removal.  The
    prompts go where [print] writes. *)
Definition main (choice_line confirm_line : string) (os_remove : result unit)
    : M unit :=
  fun s =>
    let s1 := snd (print "Cleanup Options:" s) in
    let s2 := snd (print "1. Clear Network Logs" s1) in
    let s3 := snd (print "2. Remove Entire Database File" s2) in
    let s4 := snd (print "Enter your choice (1/2): " s3) in
    let choice := str_strip choice_line in
    if String.eqb choice "1" then cleanup_network_logs s4
    else if String.eqb choice "2" then
      let s5 :=
        snd (print "Are you sure you want to delete the entire database? (yes/no): "
               s4) in
      let confirm := str_lower confirm_line in
      if String.eqb confirm "yes" then remove_database_file os_remove s5
      else print "Database deletion cancelled." s5
    else print "Invalid choice. Please select 1 or 2." s4.

End Main.

(** The file of a database whose two tables exist. *)
Definition file_of (d : database) : sqlite_file :=
  {| tbl_app_policies := Some (app_policies d);
     tbl_network_logs := Some (network_logs d) |}.

(** X14: [init_db] always returns; afterwards the file exists with both
    tables, each holding exactly the rows it held before (none when the
    table or the file was missing: data is never dropped); nothing is
    printed; and running it again changes nothing. *)
Theorem init_db_creates_and_keeps (s : state) :
  let before := default new_file (db_file s) in
  fst (init_db s) = Ok tt
  /\ db_file (snd (init_db s)) =
       Some {| tbl_app_policies := Some (default [] (tbl_app_policies before));
               tbl_network_logs := Some (default [] (tbl_network_logs before)) |}
  /\ printed (snd (init_db s)) = printed s
  /\ init_db (snd (init_db s)) = (Ok tt, snd (init_db s)).
Proof.
  destruct s as [[[[pols |] [logs |]] |] out]; repeat split.
Qed.

(** X15: [cleanup_network_logs] never raises.  When the file or the
    [network_logs] table is missing it prints the error instead of the
    success line and stores nothing, but the file exists afterwards (opening
    it created it, empty); when the table is there it is emptied.  In every
    case the policies table is left exactly as it was. *)
Theorem cleanup_network_logs_on_any_file (s : state) :
  let before := default new_file (db_file s) in
  let after := default new_file (db_file (snd (cleanup_network_logs s))) in
  fst (cleanup_network_logs s) = Ok tt
  /\ is_Some (db_file (snd (cleanup_network_logs s)))
  /\ tbl_app_policies after = tbl_app_policies before
  /\ (tbl_network_logs before = None ->
      tbl_network_logs after = None
      /\ printed (snd (cleanup_network_logs s)) =
           printed s ++
             ["An error occurred while cleaning up logs: no such table: network_logs"])
  /\ (is_Some (tbl_network_logs before) ->
      tbl_network_logs after = Some []
      /\ printed (snd (cleanup_network_logs s)) =
           printed s ++ ["Network logs have been successfully cleared."]).
Proof.
  destruct s as [[[pols [logs |]] |] out]; simpl;
    repeat split; eauto; try discriminate;
    match goal with H : is_Some None |- _ => destruct H; discriminate end.
Qed.

(** X16: [remove_database_file] never lets an [Exception] out.  If the
    file is there and [os.remove] succeeds the file is gone, and an
    [init_db] after it finds two empty tables: every policy and every
    record is lost.  If [os.remove] fails the file is kept as it is; if
    there is no file only a message is printed. *)
Theorem remove_database_file_outcomes (os_remove : result unit) (s : state) :
  (forall e, fst (remove_database_file os_remove s) = Raise e ->
     is_Exception e = false)
  /\ (is_Some (db_file s) -> os_remove = Ok tt ->
      db_file (snd (remove_database_file os_remove s)) = None
      /\ db_file (snd (init_db (snd (remove_database_file os_remove s)))) =
           Some (SqliteFile (Some []) (Some [])))
  /\ (forall e, os_remove = Raise e ->
      db_file (snd (remove_database_file os_remove s)) = db_file s)
  /\ (db_file s = None ->
      snd (remove_database_file os_remove s) =
        {| db_file := None; printed := printed s ++ ["No database file found."] |}).
Proof.
  unfold remove_database_file.
  destruct s as [[f |] out]; simpl.
  - destruct os_remove as [[] | e]; simpl.
    + repeat split; try discriminate.
    + destruct (is_Exception e) eqn:E; simpl;
        repeat split; try discriminate.
      intros e' [= <-]. exact E.
  - repeat split; try discriminate.
Qed.

(** X17: the cleanup menu destroys data only on the two documented
    answers.  The file ends up different from what it was only if the
    first answer, stripped, is [1], or it is [2] and the second answer,
    lowercased, is [yes]; a file that was there is gone only in the second
    case; the policies table is never changed while the file stays. *)
Theorem main_changes_the_file_only_on_request
    (str_strip str_lower : string -> string)
    (choice_line confirm_line : string) (os_remove : result unit) (s : state) :
  let s' := snd (main str_strip str_lower choice_line confirm_line os_remove s) in
  (db_file s' <> db_file s ->
   str_strip choice_line = "1"
   \/ (str_strip choice_line = "2" /\ str_lower confirm_line = "yes"))
  /\ (is_Some (db_file s) -> db_file s' = None ->
      str_strip choice_line = "2" /\ str_lower confirm_line = "yes"
      /\ os_remove = Ok tt)
  /\ (forall f f', db_file s = Some f -> db_file s' = Some f' ->
      tbl_app_policies f' = tbl_app_policies f).
Proof.
  intros s'. subst s'. unfold main.
  destruct s as [[[pols logs] |] out];
    destruct (String.eqb_spec (str_strip choice_line) "1") as [H1 | H1];
    [ | destruct (String.eqb_spec (str_strip choice_line) "2") as [H2 | H2];
        [ destruct (String.eqb_spec (str_lower confirm_line) "yes") as [Hy | Hy] | ]
      | | destruct (String.eqb_spec (str_strip choice_line) "2") as [H2 | H2];
        [ destruct (String.eqb_spec (str_lower confirm_line) "yes") as [Hy | Hy] | ] ];
    try (destruct logs as [logs |]);
    try (destruct os_remove as [[] | e]; [| destruct (is_Exception e) eqn:Hexc]);
    unfold cleanup_network_logs, remove_database_file; simpl; try rewrite Hexc; simpl;
    (split; [| split]);
    try (intros H; now elim H);
    try (intros [x Hx] Hnone; discriminate);
    try (intros f f' [= <-] [= <-]; reflexivity);
    try (intros f f' Hf Hf'; discriminate);
    auto.
Qed.

End Disk.

(** On a file where [init_db] has run, the file-level model and the
    one the agent is written against agree: [Disk.init_db] leaves the state
    exactly as it is, and [Disk.cleanup_network_logs] returns, prints and
    leaves the tables that [cleanup_network_logs] gives on the
    corresponding world. *)
Theorem initialised_file_agrees {datetime rng_state : Type}
    (w : world datetime rng_state) :
  let s := {| Disk.db_file := Some (Disk.file_of (db w));
              Disk.printed := stdout w |} in
  Disk.init_db s = (Ok tt, s)
  /\ Disk.cleanup_network_logs s =
       (fst (cleanup_network_logs w),
        {| Disk.db_file := Some (Disk.file_of (db (snd (cleanup_network_logs w))));
           Disk.printed := stdout (snd (cleanup_network_logs w)) |}).
Proof. split; reflexivity. Qed.

(** * The further properties at concrete inputs *)

Module MoreWitnesses.
Import Sample.

Definition fresh_entry : log_entry Z :=
  {| entry_id := "row-new"; entry_app_name := "chrome.exe";
     entry_timestamp := 500123; entry_destination := "10.0.0.5:443";
     entry_protocol := "SOCK_STREAM"; entry_bytes_sent := 10;
     entry_bytes_received := 20 |}.

Lemma append_then_get_app_logs_witness :
  ~ In (entry_id fresh_entry) (log_ids (db (world_of logs9 0)))
  /\ fits_int64 (entry_bytes_sent fresh_entry) = true
  /\ fits_int64 (entry_bytes_received fresh_entry) = true
  /\ "firefox.exe" <> "chrome.exe"
  /\ fst (get_app_logs "chrome.exe"
            (snd (_log_network_activity toy_datetime_str toy_is_numeric_literal
                    fresh_entry (world_of logs9 0)))) =
     Ok (quiet_rows 9 ++
           [LogRow "row-new" "chrome.exe" (KeptText "2023-11-14 22:13:20.500123")
              "10.0.0.5:443" "SOCK_STREAM" 10 20])
  /\ fst (get_app_logs "chrome.exe"
            (snd (_log_network_activity str_int toy_is_numeric_literal
                    fresh_entry (world_of logs9 0)))) =
     Ok (quiet_rows 9 ++
           [LogRow "row-new" "chrome.exe" (NumberOf "500123")
              "10.0.0.5:443" "SOCK_STREAM" 10 20]).
Proof.
  assert (H1 : ~ In (entry_id fresh_entry) (log_ids (db (world_of logs9 0))))
    by (vm_compute; intuition discriminate).
  assert (H2 : "firefox.exe" <> "chrome.exe") by discriminate.
  split; [exact H1 | split; [reflexivity | split; [reflexivity |]]].
  split; [exact H2 | split].
  - exact (proj1 (proj2 (append_then_get_app_logs Z toy_datetime_str
                           toy_is_numeric_literal Z fresh_entry "firefox.exe"
                           (world_of logs9 0) H1 eq_refl eq_refl H2))).
  - exact (proj1 (proj2 (append_then_get_app_logs Z str_int
                           toy_is_numeric_literal Z fresh_entry "firefox.exe"
                           (world_of logs9 0) H1 eq_refl eq_refl H2))).
Defined.

Lemma monitor_then_get_app_logs_witness :
  "firefox.exe" <> "chrome.exe"
  /\ fst (get_app_logs "firefox.exe"
            (snd (monitor_network_traffic toy_datetime_str toy_is_numeric_literal
                    (Ok [good1; listening_socket; bad2; good3]) "chrome.exe"
                    (world_of logs9 0)))) =
     fst (get_app_logs "firefox.exe" (world_of logs9 0)).
Proof.
  assert (H : "firefox.exe" <> "chrome.exe") by discriminate.
  split; [exact H |].
  exact (proj1 (monitor_then_get_app_logs Z toy_datetime_str toy_is_numeric_literal Z
                  [good1; listening_socket; bad2; good3] "chrome.exe"
                  "firefox.exe" (world_of logs9 0) H)).
Defined.

Lemma monitor_network_traffic_ignores_unconnected_witness :
  List.filter established [listening_socket; listening_socket] = []
  /\ monitor_network_traffic toy_datetime_str toy_is_numeric_literal
       (Ok [listening_socket; listening_socket]) "chrome.exe" (world_of logs9 0) =
     (Ok tt, world_of logs9 0).
Proof.
  split; [reflexivity |].
  apply (proj2 (monitor_network_traffic_ignores_unconnected Z toy_datetime_str
                  toy_is_numeric_literal Z
                  [listening_socket; listening_socket] "chrome.exe"
                  (world_of logs9 0))).
  reflexivity.
Defined.

Definition no_pid_key : proc :=
  Proc (info_of [("name", PyStr "ghost"); ("exe", PyStr "/bin/ghost")]).

Lemma get_running_processes_raises_first_unhandled_witness :
  Forall lookup_handled [firefox; vanished]
  /\ unhandled_failure no_pid_key = Some (Exn KeyError "'pid'")
  /\ get_running_processes ([firefox; vanished] ++ no_pid_key :: [no_exe_key])
       (world_of empty_db 0) =
     (Raise (Exn KeyError "'pid'"), world_of empty_db 0).
Proof.
  assert (H1 : Forall lookup_handled [firefox; vanished]).
  { repeat (apply List.Forall_cons; [vm_compute; eauto |]). apply List.Forall_nil. }
  assert (H2 : unhandled_failure no_pid_key = Some (Exn KeyError "'pid'"))
    by reflexivity.
  split; [exact H1 | split; [exact H2 |]].
  exact (proj1 (get_running_processes_raises_first_unhandled Z Z
                  [firefox; vanished] no_pid_key [no_exe_key]
                  (Exn KeyError "'pid'") (world_of empty_db 0) H1 H2)).
Defined.

Lemma detect_anomalies_returns_stored_rows_witness :
  fst (detect_anomalies toy_RandomState toy_forest_fit toy_forest_predict
         (world_of logs10 7)) = Ok [loud_row]
  /\ [loud_row] `sublist_of` network_logs (db (world_of logs10 7)).
Proof.
  assert (H : fst (detect_anomalies toy_RandomState toy_forest_fit
                     toy_forest_predict (world_of logs10 7)) = Ok [loud_row])
    by reflexivity.
  split; [exact H |].
  exact (proj1 (detect_anomalies_returns_stored_rows Z Z toy_RandomState Z
                  toy_forest_fit toy_forest_predict (world_of logs10 7)
                  [loud_row] H)).
Defined.

Lemma dashboard_shows_processes_and_anomalies_witness :
  Forall lookup_handled [firefox; vanished]
  /\ fst (dashboard toy_RandomState toy_forest_fit toy_forest_predict
            toy_render_template [firefox; vanished] (world_of logs10 7)) =
     Ok "processes: 1, anomalies: 1"
  /\ fst (dashboard toy_RandomState toy_forest_fit toy_forest_predict
            no_template [firefox; vanished] (world_of logs10 7)) =
     Raise (Exn TemplateNotFound "dashboard.html").
Proof.
  assert (H : Forall lookup_handled [firefox; vanished]).
  { repeat (apply List.Forall_cons; [vm_compute; eauto |]). apply List.Forall_nil. }
  split; [exact H | split].
  - rewrite (proj1 (dashboard_shows_processes_and_anomalies Z Z toy_RandomState Z
                      toy_forest_fit toy_forest_predict toy_render_template
                      [firefox; vanished] (world_of logs10 7) H)).
    reflexivity.
  - rewrite (proj1 (dashboard_shows_processes_and_anomalies Z Z toy_RandomState Z
                      toy_forest_fit toy_forest_predict no_template
                      [firefox; vanished] (world_of logs10 7) H)).
    reflexivity.
Defined.

Definition nameless_request : policy_request :=
  {| req_app_name := None; req_allowed_domains := Some ["example.com"];
     req_allowed_ips := None; req_allowed_protocols := None;
     req_is_active := Some true |}.

Lemma create_policy_missing_app_name_witness :
  req_app_name nameless_request = None
  /\ exists e,
       create_policy nameless_request (world_of logs10_with_policy 0) =
         (Raise e, snd (uuid4 Z Z (world_of logs10_with_policy 0)))
       /\ exn_cls e = KeyError
       /\ db (snd (create_policy nameless_request (world_of logs10_with_policy 0))) =
            db (world_of logs10_with_policy 0)
       /\ uuid_calls (snd (create_policy nameless_request
                             (world_of logs10_with_policy 0))) =
            S (uuid_calls (world_of logs10_with_policy 0)).
Proof.
  split; [reflexivity |].
  exact (create_policy_missing_app_name Z Z nameless_request
           (world_of logs10_with_policy 0) eq_refl).
Defined.

Lemma run_operations_keep_keys_distinct_witness :
  keys_distinct (db (world_of logs10_with_policy 0))
  /\ keys_distinct
       (db (run_operations toy_datetime_str toy_is_numeric_literal toy_RandomState
              toy_forest_fit toy_forest_predict toy_render_template
              (Witnesses.busy_day ++ [CleanupNetworkLogs; CreatePolicy chrome_request])
              (world_of logs10_with_policy 0))).
Proof.
  assert (H : keys_distinct (db (world_of logs10_with_policy 0))).
  { split; apply (bool_decide_unpack _); vm_compute; exact I. }
  split; [exact H |].
  exact (run_operations_keep_keys_distinct Z toy_datetime_str toy_is_numeric_literal
           Z toy_RandomState Z toy_forest_fit toy_forest_predict toy_render_template
           (Witnesses.busy_day ++ [CleanupNetworkLogs; CreatePolicy chrome_request])
           (world_of logs10_with_policy 0) H).
Defined.

(** What the generator draws. *)
Definition toy_random (k : nat) : Z := Z.of_nat k * 7919.

Lemma generate_test_logs_adds_55_rows_witness :
  NoDup (log_ids (db (world_of logs9 0)) ++
         map (os_entropy (world_of logs9 0))
           (seq (uuid_calls (world_of logs9 0)) 55))
  /\ fst (generate_test_logs toy_datetime_str toy_is_numeric_literal toy_random
            (world_of logs9 0)) = Ok tt
  /\ NoDup (log_ids (db (snd (generate_test_logs toy_datetime_str
                                toy_is_numeric_literal toy_random
                                (world_of logs9 0))))).
Proof.
  assert (H : NoDup (log_ids (db (world_of logs9 0)) ++
                     map (os_entropy (world_of logs9 0))
                       (seq (uuid_calls (world_of logs9 0)) 55))).
  { apply (bool_decide_unpack _). vm_compute. exact I. }
  split; [exact H |].
  pose proof (generate_test_logs_adds_55_rows Z toy_datetime_str
                toy_is_numeric_literal Z toy_random (world_of logs9 0) H)
    as (H1 & _ & _ & H4).
  split; [exact H1 | exact H4].
Defined.

(** A store that already holds the fourth id the generator will produce. *)
Definition taken_id : database :=
  {| app_policies := [];
     network_logs := [LogRow "uuid-3" "chrome.exe"
                        (KeptText "2023-11-14 22:13:19.000000") "10.0.0.9:443"
                        "SOCK_STREAM" 1 2] |}.

Lemma generate_test_logs_all_or_nothing_witness :
  fst (generate_test_logs toy_datetime_str toy_is_numeric_literal toy_random
         (world_of taken_id 0)) =
    Raise (Exn IntegrityError "UNIQUE constraint failed: network_logs.id")
  /\ db (snd (generate_test_logs toy_datetime_str toy_is_numeric_literal toy_random
                (world_of taken_id 0))) =
     taken_id
  /\ stdout (snd (generate_test_logs toy_datetime_str toy_is_numeric_literal
                    toy_random (world_of taken_id 0))) = [].
Proof.
  assert (H : fst (generate_test_logs toy_datetime_str toy_is_numeric_literal
                     toy_random (world_of taken_id 0)) =
              Raise (Exn IntegrityError "UNIQUE constraint failed: network_logs.id"))
    by (vm_compute; reflexivity).
  split; [exact H |].
  exact (proj2 (proj1 (generate_test_logs_all_or_nothing Z toy_datetime_str
                         toy_is_numeric_literal Z toy_RandomState Z toy_forest_fit
                         toy_forest_predict toy_random (world_of taken_id 0)) _ H)).
Defined.

Definition toy_frame_str (l : list (string * string * Z * Z)) : string :=
  "rows: " +:+ str_int (Z.of_nat (length l)).

Lemma debug_anomaly_detection_agrees_with_agent_witness :
  forest_outliers Z toy_RandomState Z toy_forest_fit toy_forest_predict
    (network_logs (db (world_of logs10 7))) = Ok [loud_row]
  /\ stdout (snd (debug_anomaly_detection Z Z toy_RandomState Z toy_forest_fit
                    toy_forest_predict toy_frame_str (world_of logs10 7))) =
     [newline +:+ "--- Anomaly Detection Report ---";
      "Total Logs: 10"; "Anomalous Logs: 1";
      newline +:+ "Anomalous Log Details:"; "rows: 1"].
Proof.
  assert (H : forest_outliers Z toy_RandomState Z toy_forest_fit toy_forest_predict
                (network_logs (db (world_of logs10 7))) = Ok [loud_row])
    by reflexivity.
  split; [exact H |].
  exact (proj1 (proj2 (debug_anomaly_detection_agrees_with_agent Z Z toy_RandomState
                         Z toy_forest_fit toy_forest_predict toy_frame_str
                         (world_of logs10 7) [loud_row] H))).
Defined.

Lemma debug_anomaly_detection_propagates_witness :
  forest_labels Z toy_RandomState Z toy_forest_fit toy_forest_predict
    (network_logs (db (world_of logs10_broken 7))) =
    Raise (Exn ValueError "negative byte count")
  /\ debug_anomaly_detection Z Z toy_RandomState Z toy_forest_fit toy_forest_predict
       toy_frame_str (world_of logs10_broken 7) =
     (Raise (Exn ValueError "negative byte count"), world_of logs10_broken 7).
Proof.
  assert (H : forest_labels Z toy_RandomState Z toy_forest_fit toy_forest_predict
                (network_logs (db (world_of logs10_broken 7))) =
              Raise (Exn ValueError "negative byte count")) by reflexivity.
  split; [exact H |].
  exact (proj1 (debug_anomaly_detection_propagates Z Z toy_RandomState Z
                  toy_forest_fit toy_forest_predict toy_frame_str
                  (world_of logs10_broken 7) _ H)).
Defined.

Definition no_file : Disk.state := {| Disk.db_file := None; Disk.printed := [] |}.

Definition seeded_file : Disk.state :=
  {| Disk.db_file := Some (Disk.file_of logs10_with_policy); Disk.printed := [] |}.

Lemma cleanup_network_logs_on_any_file_witness :
  Disk.tbl_network_logs (default Disk.new_file (Disk.db_file no_file)) = None
  /\ Disk.printed (snd (Disk.cleanup_network_logs no_file)) =
     Disk.printed no_file ++
       ["An error occurred while cleaning up logs: no such table: network_logs"].
Proof.
  split; [reflexivity |].
  exact (proj2 (proj1 (proj2 (proj2 (proj2
           (Disk.cleanup_network_logs_on_any_file no_file)))) eq_refl)).
Defined.

Lemma remove_database_file_outcomes_witness :
  is_Some (Disk.db_file seeded_file)
  /\ Disk.db_file (snd (Disk.remove_database_file (Ok tt) seeded_file)) = None
  /\ Disk.db_file (snd (Disk.init_db
                          (snd (Disk.remove_database_file (Ok tt) seeded_file)))) =
     Some (Disk.SqliteFile (Some []) (Some [])).
Proof.
  assert (H : is_Some (Disk.db_file seeded_file)) by (simpl; eauto).
  split; [exact H |].
  exact (proj1 (proj2 (Disk.remove_database_file_outcomes (Ok tt) seeded_file))
           H eq_refl).
Defined.

Lemma main_changes_the_file_only_on_request_witness :
  is_Some (Disk.db_file seeded_file)
  /\ Disk.db_file (snd (Disk.main (fun s => s) DecisionEngine.lower "2" "YES"
                          (Ok tt) seeded_file)) = None
  /\ DecisionEngine.lower "YES" = "yes".
Proof.
  assert (H1 : is_Some (Disk.db_file seeded_file)) by (simpl; eauto).
  assert (H2 : Disk.db_file (snd (Disk.main (fun s => s) DecisionEngine.lower
                                    "2" "YES" (Ok tt) seeded_file)) = None)
    by reflexivity.
  split; [exact H1 | split; [exact H2 |]].
  exact (proj1 (proj2 (proj1 (proj2 (Disk.main_changes_the_file_only_on_request
                                       (fun s => s) DecisionEngine.lower "2" "YES"
                                       (Ok tt) seeded_file))
                         H1 H2))).
Defined.

End MoreWitnesses.
